(** * Tybalt two-hidden-layer VAE (scripts/functions/vae.py)

    A shallow embedding of [tybalt_2layer_model]: the Keras graph the function
    builds, the backend variable [beta] shared by the loss and the warm-up
    callback, the pandas train/test split, the exported tables and the order
    of the file operations.

    Numbers.  Tensor entries and the warm-up coefficient are floating-point
    numbers in the program; here they are real numbers ([R]) with exact
    arithmetic.  Counts, positions and seeds are [nat] and [Z]; the sampling
    fraction is a rational ([Q]) so that the size of the test set computes. *)

From Stdlib Require Import String Ascii DecimalString.
From Stdlib Require Import Reals Psatz ZArith QArith Qround Bool List
  Permutation FunctionalExtensionality.
Import ListNotations.

Local Open Scope R_scope.

(** ** Lists of reals *)

Fixpoint map2 {A B C : Type} (f : A -> B -> C) (l : list A) (l' : list B)
  : list C :=
  match l, l' with
  | x :: t, y :: t' => f x y :: map2 f t t'
  | _, _ => []
  end.

(** [mapi_from i f l] maps [f] over [l], passing the position of each
    element, counted from [i]. *)
Fixpoint mapi_from {A B : Type} (i : nat) (f : nat -> A -> B) (l : list A)
  : list B :=
  match l with
  | [] => []
  | x :: t => f i x :: mapi_from (S i) f t
  end.

Definition mapi {A B : Type} (f : nat -> A -> B) (l : list A) : list B :=
  mapi_from 0 f l.

Definition rsum (l : list R) : R := fold_right Rplus 0 l.

(** Arithmetic mean; on the empty list this is [0 * / 0], where numpy
    returns nan. *)
Definition rmean (l : list R) : R := rsum l / INR (length l).

(** ** Backend variables ([K.variable], [K.get_value], [K.set_value])

    A variable is a handle into the session's store; [get_value] reads the
    number held there now and [set_value] overwrites it. *)

Definition VarId := nat.
Definition Store := VarId -> R.

Definition get_value (st : Store) (v : VarId) : R := st v.

Definition set_value (st : Store) (v : VarId) (x : R) : Store :=
  fun u => if Nat.eqb u v then x else st u.

(** [beta = K.variable(0)]: the only variable the function creates, holding
    [0] when it is created. *)
Definition beta : VarId := 0%nat.

Definition initial_store : Store := fun _ => 0.

(** ** Warm-up callback *)

Module WarmUpCallback.

Record t := { self_beta : VarId; self_kappa : R }.

Definition __init__ (beta : VarId) (kappa : R) : t :=
  {| self_beta := beta; self_kappa := kappa |}.

(** [if K.get_value(self.beta) <= 1:
       K.set_value(self.beta, K.get_value(self.beta) + self.kappa)] *)
Definition on_epoch_end (self : t) (st : Store) : Store :=
  if Rle_dec (get_value st (self_beta self)) 1
  then set_value st (self_beta self)
         (get_value st (self_beta self) + self_kappa self)
  else st.

End WarmUpCallback.

(** The store after [n] completed epochs, as far as the callback is
    concerned: nothing else in the function writes a backend variable. *)
Fixpoint after_epochs (cb : WarmUpCallback.t) (n : nat) (st : Store) : Store :=
  match n with
  | O => st
  | S k => WarmUpCallback.on_epoch_end cb (after_epochs cb k st)
  end.

(** The value of [beta] after [n] epochs of a run with step [kappa]. *)
Definition beta_after (kappa : R) (n : nat) : R :=
  get_value
    (after_epochs (WarmUpCallback.__init__ beta kappa) n initial_store) beta.

(** ** Values of tensors

    A value is a scalar, a vector or a matrix (a batch: one row per sample).
    Element-wise operations broadcast as numpy does for these ranks: a scalar
    against anything, a vector against the rows of a matrix.  Shapes the
    backend would reject are not told apart: [map2] stops at the shorter
    list. *)

Inductive Val : Type :=
| VS (x : R)
| VV (v : list R)
| VM (m : list (list R)).

Definition broadcast (f : R -> R -> R) (a b : Val) : Val :=
  match a, b with
  | VS x, VS y => VS (f x y)
  | VS x, VV v => VV (map (f x) v)
  | VS x, VM m => VM (map (map (f x)) m)
  | VV u, VS y => VV (map (fun x => f x y) u)
  | VV u, VV v => VV (map2 f u v)
  | VV u, VM m => VM (map (fun row => map2 f u row) m)
  | VM m, VS y => VM (map (map (fun x => f x y)) m)
  | VM m, VV v => VM (map (fun row => map2 f row v) m)
  | VM m, VM m' => VM (map2 (map2 f) m m')
  end.

Definition pointwise (f : R -> R) (a : Val) : Val :=
  match a with
  | VS x => VS (f x)
  | VV v => VV (map f v)
  | VM m => VM (map (map f) m)
  end.

(** Reduction over the last axis ([axis=-1]). *)
Definition reduce_last (f : list R -> R) (a : Val) : Val :=
  match a with
  | VS x => VS x
  | VV v => VS (f v)
  | VM m => VV (map f m)
  end.

(** Reduction over every axis ([axis=None]). *)
Definition reduce_all (f : list R -> R) (a : Val) : Val :=
  match a with
  | VS x => VS x
  | VV v => VS (f v)
  | VM m => VS (f (concat m))
  end.

(** [K.random_normal(shape=tf.shape(like), mean, stddev)]: one variate per
    entry of [like]; [normal i j] is the standard normal variate the
    backend's generator yields for entry [(i, j)] in this run of the graph. *)
Definition random_normal (normal : nat -> nat -> R) (mean stddev : R)
  (like : Val) : Val :=
  match like with
  | VS _ => VS (mean + stddev * normal 0%nat 0%nat)
  | VV v => VV (mapi (fun j _ => mean + stddev * normal 0%nat j) v)
  | VM m =>
      VM (mapi (fun i row => mapi (fun j _ => mean + stddev * normal i j) row)
            m)
  end.

(** [K.epsilon()], Keras' fuzz factor. *)
Definition K_epsilon : R := 1 / 10000000.

Definition clip (x lo hi : R) : R := Rmax lo (Rmin x hi).

(** [K.binary_crossentropy] on one entry: the prediction is clipped to
    [[epsilon, 1 - epsilon]] and scored against the target. *)
Definition K_binary_crossentropy (target output : R) : R :=
  let p := clip output K_epsilon (1 - K_epsilon) in
  - (target * ln p + (1 - target) * ln (1 - p)).

(** ** Layers

    Every call of a layer constructor makes a new layer instance, with
    parameters of its own; an instance is named by its position in the
    registry of the layers created so far. *)

Inductive ActivationFn : Type := linear | relu | sigmoid.

Inductive Initializer : Type := glorot_uniform | other_initializer.

Inductive LayerKind : Type :=
| Dense (units : nat) (activation : ActivationFn)
    (kernel_initializer : Initializer)
| BatchNormalization
| Activation (f : ActivationFn).

Definition LayerId := nat.

(** The parameters of a layer instance.  A [Dense] layer reads [kernel] and
    [bias], a [BatchNormalization] layer the other four. *)
Record Params : Type := {
  kernel : nat -> nat -> R;
  bias : nat -> R;
  gamma : nat -> R;
  bn_beta : nat -> R;
  moving_mean : nat -> R;
  moving_variance : nat -> R
}.

Definition Weights := LayerId -> Params.

Definition activate (f : ActivationFn) (x : R) : R :=
  match f with
  | linear => x
  | relu => Rmax x 0
  | sigmoid => 1 / (1 + exp (- x))
  end.

(** The inner product of a row with column [col] of a kernel, the row's
    first entry being at position [i]. *)
Fixpoint dot_from (i : nat) (row : list R) (col : nat -> R) : R :=
  match row with
  | [] => 0
  | x :: t => x * col i + dot_from (S i) t col
  end.

Definition dense_row (p : Params) (units : nat) (act : ActivationFn)
  (row : list R) : list R :=
  map (fun j => activate act (dot_from 0 row (fun i => kernel p i j) + bias p j))
    (seq 0 units).

Definition column (m : list (list R)) (j : nat) : list R :=
  map (fun row => nth j row 0) m.

Definition variance (l : list R) : R :=
  rmean (map (fun x => Rsqr (x - rmean l)) l).

(** Keras' default [epsilon] of [BatchNormalization]. *)
Definition bn_epsilon : R := 1 / 1000.

(** Batch normalization of a batch: with the statistics of the batch while
    training, with the moving statistics otherwise. *)
Definition batch_normalization (p : Params) (training : bool)
  (m : list (list R)) : list (list R) :=
  map (mapi (fun j x =>
               let mu := if training then rmean (column m j)
                         else moving_mean p j in
               let var := if training then variance (column m j)
                          else moving_variance p j in
               gamma p j * (x - mu) / sqrt (var + bn_epsilon) + bn_beta p j))
    m.

Definition rows_of (a : Val) : list (list R) :=
  match a with
  | VS x => [[x]]
  | VV v => [v]
  | VM m => m
  end.

(** A layer applied to a batch.  An identifier that names no layer leaves
    the value as it is. *)
Definition apply_layer (k : option LayerKind) (p : Params) (training : bool)
  (a : Val) : Val :=
  match k with
  | Some (Dense units act _) => VM (map (dense_row p units act) (rows_of a))
  | Some BatchNormalization => VM (batch_normalization p training (rows_of a))
  | Some (Activation f) => pointwise (activate f) a
  | None => a
  end.

(** ** Symbolic tensors

    What the Keras and backend calls of the function build: the nodes of the
    computation graph.  A Python or numpy number that enters an expression
    becomes a [Constant] of the graph; a backend variable that enters it is
    read each time the graph runs. *)

Inductive Tensor : Type :=
| Placeholder (p : nat)
| Constant (c : R)
| Var (v : VarId)
| Apply (l : LayerId) (x : Tensor)
| RandomNormal (like : Tensor) (mean stddev : R)
| Add (a b : Tensor)
| Sub (a b : Tensor)
| Mul (a b : Tensor)
| Div (a b : Tensor)
| Exp (a : Tensor)
| Square (a : Tensor)
| Sum_last (a : Tensor)
| Mean_last (a : Tensor)
| Mean (a : Tensor)
| Binary_crossentropy (target output : Tensor).

(** One run of a graph: what is fed to the placeholders, the store of the
    backend variables, the parameters of the layers, the learning phase and
    the variates the generator yields in this run. *)
Record Run : Type := {
  feed : nat -> Val;
  store : Store;
  weights : Weights;
  training : bool;
  normal : nat -> nat -> R
}.

Fixpoint eval (layers : list LayerKind) (r : Run) (t : Tensor) : Val :=
  match t with
  | Placeholder p => feed r p
  | Constant c => VS c
  | Var v => VS (get_value (store r) v)
  | Apply l x =>
      apply_layer (nth_error layers l) (weights r l) (training r)
        (eval layers r x)
  | RandomNormal like mean stddev =>
      random_normal (normal r) mean stddev (eval layers r like)
  | Add a b => broadcast Rplus (eval layers r a) (eval layers r b)
  | Sub a b => broadcast Rminus (eval layers r a) (eval layers r b)
  | Mul a b => broadcast Rmult (eval layers r a) (eval layers r b)
  | Div a b => broadcast Rdiv (eval layers r a) (eval layers r b)
  | Exp a => pointwise exp (eval layers r a)
  | Square a => pointwise Rsqr (eval layers r a)
  | Sum_last a => reduce_last rsum (eval layers r a)
  | Mean_last a => reduce_last rmean (eval layers r a)
  | Mean a => reduce_all rmean (eval layers r a)
  | Binary_crossentropy target output =>
      broadcast K_binary_crossentropy (eval layers r target)
        (eval layers r output)
  end.

(** [metrics.binary_crossentropy(y_true, y_pred)]: the mean of the
    entry-wise cross-entropy over the last axis. *)
Definition metrics_binary_crossentropy (y_true y_pred : Tensor) : Tensor :=
  Mean_last (Binary_crossentropy y_true y_pred).

(** ** Building the graph

    The function builds its graph by side effect: each layer constructor
    registers a new instance and each [Input] a new placeholder (of the given
    width).  [Build] threads the registry. *)

Record Graph : Type := { g_layers : list LayerKind; g_inputs : list nat }.

Definition empty_graph : Graph := {| g_layers := []; g_inputs := [] |}.

Definition Build (A : Type) : Type := Graph -> A * Graph.

Definition ret {A : Type} (a : A) : Build A := fun g => (a, g).

Definition bind {A B : Type} (m : Build A) (k : A -> Build B) : Build B :=
  fun g => let (a, g') := m g in k a g'.

Declare Scope build_scope.
Notation "x <- m ;; k" := (bind m (fun x => k))
  (at level 61, m at next level, right associativity) : build_scope.
Local Open Scope build_scope.

Definition Input (dim : nat) : Build Tensor :=
  fun g => (Placeholder (length (g_inputs g)),
            {| g_layers := g_layers g; g_inputs := g_inputs g ++ [dim] |}).

Definition new_layer (k : LayerKind) : Build LayerId :=
  fun g => (length (g_layers g),
            {| g_layers := g_layers g ++ [k]; g_inputs := g_inputs g |}).

(** [Layer(...)(x)]: make the instance and call it on [x]. *)
Definition call_new (k : LayerKind) (x : Tensor) : Build Tensor :=
  l <- new_layer k ;; ret (Apply l x).

Module Sequential.

(** A sequential model is the list of its layer instances. *)
Definition t := list LayerId.

Definition empty : t := [].

Definition add (model : t) (k : LayerKind) : Build t :=
  l <- new_layer k ;; ret (model ++ [l]).

(** Calling the model on a tensor applies its instances in order. *)
Definition call (model : t) (x : Tensor) : Tensor :=
  fold_left (fun y l => Apply l y) model x.

End Sequential.

(** [Model(inputs, outputs)]. *)
Record Model : Type := { inputs : Tensor; outputs : Tensor }.

(** [sampling]: the reparameterization trick. *)
Definition sampling (epsilon_std : R) (args : Tensor * Tensor) : Tensor :=
  let (z_mean, z_log_var) := args in
  let epsilon := RandomNormal z_mean 0 epsilon_std in
  Add z_mean (Mul (Exp (Div z_log_var (Constant 2))) epsilon).

Module CustomVariationalLayer.

(** [vae_loss], run when the layer is called on the symbolic tensors, that
    is while the graph is built, with the store [st] of that moment:
    [K.get_value(beta)] is a number then, and the product with [kl_loss]
    takes it as a constant. *)
Definition vae_loss (st : Store) (original_dim : nat)
  (z_mean_encoded z_log_var_encoded : Tensor) (x_input x_decoded : Tensor)
  : Tensor :=
  let reconstruction_loss :=
    Mul (Constant (INR original_dim))
      (metrics_binary_crossentropy x_input x_decoded) in
  let kl_loss :=
    Mul (Constant (- (1 / 2)))
      (Sum_last
         (Sub (Sub (Add (Constant 1) z_log_var_encoded)
                 (Square z_mean_encoded))
            (Exp z_log_var_encoded))) in
  Mean (Add reconstruction_loss (Mul (Constant (get_value st beta)) kl_loss)).

(** [call]: the output is the first input; the loss goes to the losses of
    the layer ([add_loss]). *)
Definition call (st : Store) (original_dim : nat)
  (z_mean_encoded z_log_var_encoded : Tensor) (inputs : Tensor * Tensor)
  : Tensor * list Tensor :=
  let x := fst inputs in
  let x_decoded := snd inputs in
  let loss :=
    vae_loss st original_dim z_mean_encoded z_log_var_encoded x x_decoded in
  (x, [loss]).

End CustomVariationalLayer.

(** What the architecture part of the function leaves in scope. *)
Record Network : Type := {
  rnaseq_input : Tensor;
  hidden_encoded : Tensor;
  z_mean_encoded : Tensor;
  z_log_var_encoded : Tensor;
  z : Tensor;
  decoder_model : Sequential.t;
  rnaseq_reconstruct : Tensor;
  vae : Model;
  vae_losses : list Tensor
}.

(** The architecture, from [rnaseq_input = Input(...)] to
    [vae = Model(rnaseq_input, vae_layer)]; [st] is the store at that time.
    A [Dense] layer given no [kernel_initializer] takes Keras' default,
    which is glorot uniform. *)
Definition build_vae (st : Store)
  (original_dim intermediate_dim latent_dim : nat) (epsilon_std : R)
  : Build Network :=
  rnaseq_input <- Input original_dim ;;
  hidden_dense_linear <-
    call_new (Dense intermediate_dim linear glorot_uniform) rnaseq_input ;;
  hidden_dense_batchnorm <- call_new BatchNormalization hidden_dense_linear ;;
  hidden_encoded <- call_new (Activation relu) hidden_dense_batchnorm ;;
  z_mean_dense_linear <-
    call_new (Dense latent_dim linear glorot_uniform) hidden_encoded ;;
  z_mean_dense_batchnorm <- call_new BatchNormalization z_mean_dense_linear ;;
  z_mean_encoded <- call_new (Activation relu) z_mean_dense_batchnorm ;;
  z_log_var_dense_linear <-
    call_new (Dense latent_dim linear glorot_uniform) rnaseq_input ;;
  z_log_var_dense_batchnorm <-
    call_new BatchNormalization z_log_var_dense_linear ;;
  z_log_var_encoded <- call_new (Activation relu) z_log_var_dense_batchnorm ;;
  let z := sampling epsilon_std (z_mean_encoded, z_log_var_encoded) in
  let decoder_model := Sequential.empty in
  decoder_model <-
    Sequential.add decoder_model (Dense intermediate_dim relu glorot_uniform) ;;
  decoder_model <-
    Sequential.add decoder_model (Dense original_dim sigmoid glorot_uniform) ;;
  let rnaseq_reconstruct := Sequential.call decoder_model z in
  let (vae_layer, losses) :=
    CustomVariationalLayer.call st original_dim z_mean_encoded
      z_log_var_encoded (rnaseq_input, rnaseq_reconstruct) in
  ret {| rnaseq_input := rnaseq_input;
         hidden_encoded := hidden_encoded;
         z_mean_encoded := z_mean_encoded;
         z_log_var_encoded := z_log_var_encoded;
         z := z;
         decoder_model := decoder_model;
         rnaseq_reconstruct := rnaseq_reconstruct;
         vae := {| inputs := rnaseq_input; outputs := vae_layer |};
         vae_losses := losses |}.

(** [encoder = Model(rnaseq_input, z_mean_encoded)]. *)
Definition build_encoder (net : Network) : Model :=
  {| inputs := rnaseq_input net; outputs := z_mean_encoded net |}.

(** The decoder for export: a new placeholder, the decoder model called on
    it, and the model from the one to the other. *)
Definition build_decoder (net : Network) (latent_dim : nat) : Build Model :=
  decoder_input <- Input latent_dim ;;
  let _x_decoded_mean := Sequential.call (decoder_model net) decoder_input in
  ret {| inputs := decoder_input; outputs := _x_decoded_mean |}.

(** The loss a model compiled with [loss=None] minimizes: the sum of the
    losses its layers added. *)
Definition total_loss (losses : list Tensor) : Tensor :=
  fold_left Add losses (Constant 0).

(** ** Data frames

    A frame is its rows, each with its label in the row index, and its
    column index.  Labels are names (sample and gene identifiers) or integers
    (the default range index). *)

Inductive Label : Type :=
| Name (s : string)
| Pos (i : Z).

Definition label_eqb (a b : Label) : bool :=
  match a, b with
  | Name s, Name s' => String.eqb s s'
  | Pos i, Pos i' => Z.eqb i i'
  | _, _ => false
  end.

Record Index : Type := { name : option string; labels : list Label }.

Record DataFrame : Type := {
  index_name : option string;
  columns : Index;
  rows : list (Label * list R)
}.

Definition index (df : DataFrame) : list Label := map fst (rows df).

Definition values (df : DataFrame) : list (list R) := map snd (rows df).

(** [df.shape[1]]. *)
Definition shape_1 (df : DataFrame) : nat := length (labels (columns df)).

Definition mem_label (a : Label) (l : list Label) : bool :=
  existsb (label_eqb a) l.

(** The elements of [l] at the positions [locs], in the order of [locs].
    (pandas' [take] raises on a position out of bounds; none is ever passed
    here, and such a position is skipped.) *)
Definition pick {A : Type} (locs : list nat) (l : list A) : list A :=
  flat_map (fun i => match nth_error l i with Some x => [x] | None => [] end)
    locs.

Definition take (locs : list nat) (df : DataFrame) : DataFrame :=
  {| index_name := index_name df;
     columns := columns df;
     rows := pick locs (rows df) |}.

(** [df.drop(labels)]: the rows whose label is none of [labels]. *)
Definition drop (lbls : list Label) (df : DataFrame) : DataFrame :=
  {| index_name := index_name df;
     columns := columns df;
     rows := filter (fun row => negb (mem_label (fst row) lbls)) (rows df) |}.

(** Python 3's [round] of a number to an integer: to the nearest, a tie to
    the even neighbour. *)
Definition py_round (q : Q) : Z :=
  let f := Qfloor q in
  match Qcompare (q - inject_Z f) (1 # 2) with
  | Lt => f
  | Gt => (f + 1)%Z
  | Eq => if Z.even f then f else (f + 1)%Z
  end.

(** [df.sample(frac=frac, random_state=random_state)]: pandas takes
    [n = int(round(frac * len(df)))] rows at the first [n] positions of
    [RandomState(random_state).permutation(len(df))].  The permutation is
    numpy's and is a parameter here. *)
Definition sample (permutation : Z -> nat -> list nat) (frac : Q)
  (random_state : Z) (df : DataFrame) : DataFrame :=
  let axis_length := length (rows df) in
  let n := Z.to_nat (py_round (frac * inject_Z (Z.of_nat axis_length))) in
  let locs := firstn n (permutation random_state axis_length) in
  take locs df.

(** The module-level constant [randomState = 123]. *)
Definition randomState : Z := 123%Z.

(** [test_set_percent = 0.1], a constant of the function. *)
Definition test_set_percent : Q := 1 # 10.

(** ** Running models *)

(** The number a scalar tensor holds. *)
Definition item (a : Val) : R :=
  match a with
  | VS x => x
  | VV v => nth 0 v 0
  | VM m => nth 0 (nth 0 m []) 0
  end.

(** Feeding one value to the input placeholder of a model. *)
Definition feed_of (input : Tensor) (v : Val) : nat -> Val :=
  fun q =>
    match input with
    | Placeholder p => if Nat.eqb q p then v else VM []
    | _ => VM []
    end.

(** One forward pass of a model outside training. *)
Definition predict_on_batch (g : Graph) (m : Model) (st : Store) (w : Weights)
  (nrm : nat -> nat -> R) (x : list (list R)) : Val :=
  eval (g_layers g)
    {| feed := feed_of (inputs m) (VM x); store := st; weights := w;
       training := false; normal := nrm |}
    (outputs m).

(** The width Keras infers for a tensor (the last entry of its static
    shape). *)
Fixpoint int_shape_last (g : Graph) (t : Tensor) : nat :=
  match t with
  | Placeholder p => nth p (g_inputs g) 0%nat
  | Constant _ | Var _ => 1%nat
  | Apply l x =>
      match nth_error (g_layers g) l with
      | Some (Dense units _ _) => units
      | _ => int_shape_last g x
      end
  | RandomNormal like _ _ => int_shape_last g like
  | Add a b | Sub a b | Mul a b | Div a b | Binary_crossentropy a b =>
      Nat.max (int_shape_last g a) (int_shape_last g b)
  | Exp a | Square a => int_shape_last g a
  | Sum_last _ | Mean_last _ | Mean _ => 1%nat
  end.

(** ** Training

    [vae.fit]: in each epoch the optimizer goes through the training rows in
    batches and updates the parameters, the loss is then evaluated on the
    validation rows, and last the callbacks' [on_epoch_end] run.  The
    optimizer is Keras' Adam and is a parameter: given the number of the
    epoch, the objective (the loss as a function of the parameters, a batch
    and the variates of a run) and the training rows, it returns the new
    parameters and the loss it reports for the epoch. *)

Definition Objective : Type := Weights -> list (list R) -> (nat -> nat -> R) -> R.

Definition Optimizer : Type :=
  nat -> Objective -> list (list R) -> Weights -> Weights * R.

Record TrainState : Type := {
  ts_weights : Weights;
  ts_store : Store;
  ts_history : list (R * R)
}.

(** The loss of a model as the backend runs it with the store [st]. *)
Definition objective (g : Graph) (m : Model) (loss : Tensor) (st : Store)
  (phase : bool) : Objective :=
  fun w batch nrm =>
    item (eval (g_layers g)
            {| feed := feed_of (inputs m) (VM batch); store := st;
               weights := w; training := phase; normal := nrm |}
            loss).

Fixpoint fit (g : Graph) (m : Model) (loss : Tensor) (optimizer : Optimizer)
  (validation_normal : nat -> nat -> nat -> R)
  (x validation_data : list (list R)) (callbacks : list WarmUpCallback.t)
  (init : TrainState) (epochs : nat) : TrainState :=
  match epochs with
  | O => init
  | S epoch =>
      let s :=
        fit g m loss optimizer validation_normal x validation_data callbacks
          init epoch in
      let (w, epoch_loss) :=
        optimizer epoch (objective g m loss (ts_store s) true) x
          (ts_weights s) in
      let val_loss :=
        objective g m loss (ts_store s) false w validation_data
          (validation_normal epoch) in
      {| ts_weights := w;
         ts_store :=
           fold_left (fun st cb => WarmUpCallback.on_epoch_end cb st)
             callbacks (ts_store s);
         ts_history := ts_history s ++ [(epoch_loss, val_loss)] |}
  end.

(** ** Files

    [posixpath.join]: a component that starts with the separator replaces
    what came before it; otherwise it is appended, after a separator unless
    the path so far is empty or ends with one. *)

Definition sep : ascii := "/"%char.

Definition startswith_sep (s : string) : bool :=
  match s with
  | String c _ => Ascii.eqb c sep
  | EmptyString => false
  end.

Fixpoint endswith_sep (s : string) : bool :=
  match s with
  | EmptyString => false
  | String c EmptyString => Ascii.eqb c sep
  | String _ t => endswith_sep t
  end.

Definition join2 (path b : string) : string :=
  if startswith_sep b then b
  else if (String.eqb path EmptyString || endswith_sep path)%bool
       then String.append path b
       else String.append path (String sep b).

Definition os_path_join (a : string) (p : list string) : string :=
  fold_left join2 p a.

(** ["... {} ...".format(n)] for a natural number [n]. *)
Definition format (before after : string) (n : nat) : string :=
  String.append before
    (String.append (NilEmpty.string_of_uint (Nat.to_uint n)) after).

(** What a write leaves in a file. *)
Inductive Artifact : Type :=
| Csv (with_index : bool) (df : DataFrame)
| Figure (df : DataFrame)
| SavedModel (g : Graph) (m : Model) (w : Weights)
| SavedWeights (g : Graph) (m : Model) (w : Weights).

(** The files as the function finds them: what reading a table from a path
    gives ([None] when the file is missing or malformed) and whether a path
    can be written. *)
Record FileSystem : Type := {
  fs_read : string -> option DataFrame;
  fs_writable : string -> bool
}.

Inductive Exception : Type :=
| ReadError (path : string)
| WriteError (path : string).

(** A step of the function: it runs on the files written so far and either
    raises or returns; an exception ends the function, nothing handles it. *)
Definition Written : Type := list (string * Artifact).

Definition IO (A : Type) : Type := Written -> (Exception + A) * Written.

Definition io_ret {A : Type} (a : A) : IO A := fun out => (inr a, out).

Definition io_bind {A B : Type} (m : IO A) (k : A -> IO B) : IO B :=
  fun out =>
    match m out with
    | (inl e, out') => (inl e, out')
    | (inr a, out') => k a out'
    end.

Declare Scope io_scope.
Notation "x <- m ;; k" := (io_bind m (fun x => k))
  (at level 61, m at next level, right associativity) : io_scope.

Definition read_table (fs : FileSystem) (path : string) : IO DataFrame :=
  fun out =>
    match fs_read fs path with
    | Some df => (inr df, out)
    | None => (inl (ReadError path), out)
    end.

Definition write (fs : FileSystem) (path : string) (a : Artifact) : IO unit :=
  fun out =>
    if fs_writable fs path then (inr tt, out ++ [(path, a)])
    else (inl (WriteError path), out).

(** ** Tables the function makes *)

(** [pd.DataFrame(array, index=index)], the array having [ncols] columns:
    the columns get the default range index. *)
Definition DataFrame_of_array (array : list (list R)) (ncols : nat)
  (index_name : option string) (index : list Label) : DataFrame :=
  {| index_name := index_name;
     columns := {| name := None;
                   labels := map (fun j => Pos (Z.of_nat j)) (seq 0 ncols) |};
     rows := combine index array |}.

Definition set_columns (df : DataFrame) (cols : Index) : DataFrame :=
  {| index_name := index_name df; columns := cols; rows := rows df |}.

(** [df.columns.name = s]. *)
Definition set_columns_name (df : DataFrame) (s : string) : DataFrame :=
  set_columns df {| name := Some s; labels := labels (columns df) |}.

(** [index + k] on an index of integers; the name stays. *)
Definition index_add (ix : Index) (k : Z) : Index :=
  {| name := name ix;
     labels := map (fun l => match l with
                             | Pos i => Pos (i + k)
                             | Name s => Name s
                             end) (labels ix) |}.

(** [pd.DataFrame(hist.history)]: a row per epoch. *)
Definition history_frame (history : list (R * R)) : DataFrame :=
  {| index_name := None;
     columns := {| name := None; labels := [Name "loss"; Name "val_loss"] |};
     rows := mapi (fun i h => (Pos (Z.of_nat i), [fst h; snd h])) history |}.

(** [df.assign(column=value)] with a constant. *)
Definition assign (df : DataFrame) (column : string) (value : R) : DataFrame :=
  {| index_name := index_name df;
     columns := {| name := name (columns df);
                   labels := labels (columns df) ++ [Name column] |};
     rows := map (fun row => (fst row, snd row ++ [value])) (rows df) |}.

(** ** The function [tybalt_2layer_model] *)

Section Tybalt.

(** What the function takes from its libraries and its surroundings:
    numpy's seeded permutation, the initial parameters of the layers,
    Adam (for a learning rate and a batch size), the variates of the
    validation passes and of the prediction, and the files. *)
Variable permutation : Z -> nat -> list nat.
Variable initial_weights : Weights.
Variable Adam : R -> nat -> Optimizer.
Variable validation_normal : nat -> nat -> nat -> R.
Variable predict_normal : nat -> nat -> R.
Variable fs : FileSystem.

(** The parameters of the function. *)
Variable learning_rate : R.
Variable batch_size epochs : nat.
Variable kappa : R.
Variable intermediate_dim latent_dim : nat.
Variable epsilon_std : R.
Variable base_dir analysis_name : string.

Definition data_file : string :=
  os_path_join base_dir ["data"; analysis_name; "train_model_input.txt.xz"]%string.

Definition stat_file : string :=
  os_path_join base_dir
    ["stats"%string; analysis_name;
     format "tybalt_2layer_" "latent_stats.tsv" latent_dim].

Definition hist_plot_file : string :=
  os_path_join base_dir
    ["stats"%string; analysis_name;
     format "tybalt_2layer_" "latent_hist.png" latent_dim].

Definition encoded_file : string :=
  os_path_join base_dir
    ["encoded"%string; analysis_name;
     format "train_input_2layer_" "latent_encoded.txt" latent_dim].

Definition model_encoder_file : string :=
  os_path_join base_dir
    ["models"%string; analysis_name;
     format "tybalt_2layer_" "latent_encoder_model.h5" latent_dim].

Definition weights_encoder_file : string :=
  os_path_join base_dir
    ["models"%string; analysis_name;
     format "tybalt_2layer_" "latent_encoder_weights.h5" latent_dim].

Definition model_decoder_file : string :=
  os_path_join base_dir
    ["models"%string; analysis_name;
     format "tybalt_2layer_" "latent_decoder_model.h5" latent_dim].

Definition weights_decoder_file : string :=
  os_path_join base_dir
    ["models"%string; analysis_name;
     format "tybalt_2layer_" "latent_decoder_weights.h5" latent_dim].

(** What the body of the function computes from the table it read, in
    the order of the source; [beta = K.variable(0)] makes the store the
    graph is built with. *)
Record Locals : Type := {
  original_dim : nat;
  rnaseq_test_df : DataFrame;
  rnaseq_train_df : DataFrame;
  net : Network;
  graph : Graph;
  hist : TrainState;
  encoder : Model;
  encoded_rnaseq_df : DataFrame;
  history_df : DataFrame
}.

Definition body (rnaseq : DataFrame) : Locals :=
  let original_dim := shape_1 rnaseq in
  let st := initial_store in
  let rnaseq_test_df :=
    sample permutation test_set_percent randomState rnaseq in
  let rnaseq_train_df := drop (index rnaseq_test_df) rnaseq in
  let (net, g) :=
    build_vae st original_dim intermediate_dim latent_dim epsilon_std
      empty_graph in
  let hist :=
    fit g (vae net) (total_loss (vae_losses net))
      (Adam learning_rate batch_size) validation_normal
      (values rnaseq_train_df) (values rnaseq_test_df)
      [WarmUpCallback.__init__ beta kappa]
      {| ts_weights := initial_weights; ts_store := st; ts_history := [] |}
      epochs in
  let encoder := build_encoder net in
  let encoded :=
    predict_on_batch g encoder (ts_store hist) (ts_weights hist)
      predict_normal (values rnaseq) in
  let encoded_rnaseq_df :=
    DataFrame_of_array (rows_of encoded)
      (int_shape_last g (outputs encoder)) (index_name rnaseq)
      (index rnaseq) in
  let encoded_rnaseq_df := set_columns_name encoded_rnaseq_df "sample_id" in
  let encoded_rnaseq_df :=
    set_columns encoded_rnaseq_df
      (index_add (columns encoded_rnaseq_df) 1) in
  let history_df := history_frame (ts_history hist) in
  let history_df := assign history_df "learning_rate" learning_rate in
  let history_df := assign history_df "batch_size" (INR batch_size) in
  let history_df := assign history_df "epochs" (INR epochs) in
  let history_df := assign history_df "kappa" kappa in
  {| original_dim := original_dim;
     rnaseq_test_df := rnaseq_test_df;
     rnaseq_train_df := rnaseq_train_df;
     net := net;
     graph := g;
     hist := hist;
     encoder := encoder;
     encoded_rnaseq_df := encoded_rnaseq_df;
     history_df := history_df |}.

Local Open Scope io_scope.

(** The function as far as its last computation: the read, then the body. *)
Definition locals : IO Locals :=
  rnaseq <- read_table fs data_file ;;
  io_ret (body rnaseq).

(** The function: the read and the body, then the writes in the order of
    the source. *)
Definition tybalt_2layer_model : IO unit :=
  l <- locals ;;
  _ <- write fs hist_plot_file
         (Figure (history_frame (ts_history (hist l)))) ;;
  _ <- write fs stat_file (Csv false (history_df l)) ;;
  _ <- write fs encoded_file (Csv true (encoded_rnaseq_df l)) ;;
  _ <- write fs model_encoder_file
         (SavedModel (graph l) (encoder l) (ts_weights (hist l))) ;;
  _ <- write fs weights_encoder_file
         (SavedWeights (graph l) (encoder l) (ts_weights (hist l))) ;;
  let (decoder, g') := build_decoder (net l) latent_dim (graph l) in
  _ <- write fs model_decoder_file
         (SavedModel g' decoder (ts_weights (hist l))) ;;
  write fs weights_decoder_file
    (SavedWeights g' decoder (ts_weights (hist l))).

End Tybalt.

(** ** What a tensor depends on *)

(** The backend variables a tensor reads when it runs. *)
Fixpoint variables_of (t : Tensor) : list VarId :=
  match t with
  | Placeholder _ | Constant _ => []
  | Var v => [v]
  | Apply _ x => variables_of x
  | RandomNormal like _ _ => variables_of like
  | Add a b | Sub a b | Mul a b | Div a b | Binary_crossentropy a b =>
      variables_of a ++ variables_of b
  | Exp a | Square a | Sum_last a | Mean_last a | Mean a => variables_of a
  end.

(** The layer instances a tensor goes through. *)
Fixpoint layers_of (t : Tensor) : list LayerId :=
  match t with
  | Placeholder _ | Constant _ | Var _ => []
  | Apply l x => l :: layers_of x
  | RandomNormal like _ _ => layers_of like
  | Add a b | Sub a b | Mul a b | Div a b | Binary_crossentropy a b =>
      layers_of a ++ layers_of b
  | Exp a | Square a | Sum_last a | Mean_last a | Mean a => layers_of a
  end.

(** Whether a tensor draws random numbers. *)
Fixpoint stochastic (t : Tensor) : bool :=
  match t with
  | Placeholder _ | Constant _ | Var _ => false
  | Apply _ x => stochastic x
  | RandomNormal _ _ _ => true
  | Add a b | Sub a b | Mul a b | Div a b | Binary_crossentropy a b =>
      stochastic a || stochastic b
  | Exp a | Square a | Sum_last a | Mean_last a | Mean a => stochastic a
  end.

(** ** The loss in closed form

    A sample of a batch as the loss sees it: for each gene the input and its
    reconstruction, for each latent dimension the mean and the log-variance
    the encoder gave. *)

Record Sample : Type := {
  genes : list (R * R);
  latent : list (R * R)
}.

Definition reconstruction_term (original_dim : nat) (s : Sample) : R :=
  INR original_dim *
  rmean (map (fun p => K_binary_crossentropy (fst p) (snd p)) (genes s)).

Definition kl_term (s : Sample) : R :=
  - (1 / 2) *
  rsum (map (fun p => 1 + snd p - Rsqr (fst p) - exp (snd p)) (latent s)).

(** The mean over the samples of the reconstruction term plus [coef] times
    the KL term. *)
Definition batch_loss (original_dim : nat) (coef : R) (batch : list Sample)
  : R :=
  rmean (map (fun s => reconstruction_term original_dim s + coef * kl_term s)
           batch).

Definition input_of (batch : list Sample) : list (list R) :=
  map (fun s => map fst (genes s)) batch.

Definition reconstruction_of (batch : list Sample) : list (list R) :=
  map (fun s => map snd (genes s)) batch.

Definition z_mean_of (batch : list Sample) : list (list R) :=
  map (fun s => map fst (latent s)) batch.

Definition z_log_var_of (batch : list Sample) : list (list R) :=
  map (fun s => map snd (latent s)) batch.

(** ** The networks as functions of one row

    The encoder's mean branch outside training, and the decoder, written
    out on one row with the parameters [w] of the layers. *)

Definition bn_row (p : Params) (row : list R) : list R :=
  mapi (fun j x =>
          gamma p j * (x - moving_mean p j) /
          sqrt (moving_variance p j + bn_epsilon) + bn_beta p j) row.

Definition encode_row (w : Weights) (intermediate_dim latent_dim : nat)
  (x : list R) : list R :=
  let hidden :=
    map (activate relu)
      (bn_row (w 1%nat) (dense_row (w 0%nat) intermediate_dim linear x)) in
  map (activate relu)
    (bn_row (w 4%nat) (dense_row (w 3%nat) latent_dim linear hidden)).

Definition decode_row (w : Weights) (intermediate_dim original_dim : nat)
  (v : list R) : list R :=
  dense_row (w 10%nat) original_dim sigmoid
    (dense_row (w 9%nat) intermediate_dim relu v).

(** ** The graph the function builds

    The registry after the architecture part: the eleven layer instances in
    the order of their creation, and the one placeholder. *)
Definition vae_graph (original_dim intermediate_dim latent_dim : nat) : Graph :=
  {| g_layers :=
       [Dense intermediate_dim linear glorot_uniform;
        BatchNormalization;
        Activation relu;
        Dense latent_dim linear glorot_uniform;
        BatchNormalization;
        Activation relu;
        Dense latent_dim linear glorot_uniform;
        BatchNormalization;
        Activation relu;
        Dense intermediate_dim relu glorot_uniform;
        Dense original_dim sigmoid glorot_uniform];
     g_inputs := [original_dim] |}.

(** ** Small instances, for examples

    A permutation (the positions in reverse), parameters with which every
    layer computes a constant, an optimizer that leaves the parameters as
    they are, a generator that yields zeros, files of which none exists, and
    a table of ten samples and one gene. *)

Definition reversed (seed : Z) (n : nat) : list nat := rev (seq 0 n).

Definition example_params (b : R) : Params :=
  {| kernel := fun _ _ => 0;
     bias := fun _ => 0;
     gamma := fun _ => 0;
     bn_beta := fun _ => b;
     moving_mean := fun _ => 0;
     moving_variance := fun _ => 1 |}.

(** The batch normalization of the mean branch (layer 4) gives 1, every
    other layer 0. *)
Definition example_weights : Weights :=
  fun l => if Nat.eqb l 4 then example_params 1 else example_params 0.

Definition idle_optimizer (learning_rate : R) (batch_size : nat) : Optimizer :=
  fun _ _ _ w => (w, 0).

Definition zeros3 : nat -> nat -> nat -> R := fun _ _ _ => 0.

Definition zeros2 : nat -> nat -> R := fun _ _ => 0.

Definition no_files : FileSystem :=
  {| fs_read := fun _ => None; fs_writable := fun _ => true |}.

Definition example_table : DataFrame :=
  {| index_name := Some "sample_id"%string;
     columns := {| name := None; labels := [Name "gene"] |};
     rows := map (fun i => (Pos (Z.of_nat i), [1])) (seq 0 10) |}.

(** Files in which every path holds the example table. *)
Definition example_files : FileSystem :=
  {| fs_read := fun _ => Some example_table; fs_writable := fun _ => true |}.

(** One sample: gene value 1 reconstructed as 1/2, latent mean 1 and
    log-variance 0. *)
Definition example_batch : list Sample :=
  [{| genes := [(1, 1 / 2)]; latent := [(1, 0)] |}].

(** ** More definitions, for the further properties *)

(** The [kl_loss] of [vae_loss], the tensor on its own. *)
Definition kl_loss (z_mean_encoded z_log_var_encoded : Tensor) : Tensor :=
  Mul (Constant (- (1 / 2)))
    (Sum_last
       (Sub (Sub (Add (Constant 1) z_log_var_encoded)
               (Square z_mean_encoded))
          (Exp z_log_var_encoded))).

(** A run of the function's graph on the batch [[1]]: the example
    parameters, any store, outside training, the generator yielding zeros. *)
Definition example_run (st : Store) : Run :=
  {| feed := feed_of (Placeholder 0) (VM [[1]]);
     store := st;
     weights := example_weights;
     training := false;
     normal := zeros2 |}.




(** Whether a path has a separator, and [posixpath.basename]: what comes
    after the last separator. *)
Fixpoint contains_sep (s : string) : bool :=
  match s with
  | EmptyString => false
  | String c t => (Ascii.eqb c sep || contains_sep t)%bool
  end.

Fixpoint basename (s : string) : string :=
  match s with
  | EmptyString => EmptyString
  | String c t =>
      if contains_sep t then basename t
      else if Ascii.eqb c sep then t else String c t
  end.

(** * Verification *)

(** ** Facts about the store *)

Lemma get_set_same (st : Store) (v : VarId) (x : R) :
  get_value (set_value st v x) v = x.
Proof. unfold get_value, set_value. now rewrite Nat.eqb_refl. Qed.

Lemma get_set_other (st : Store) (u v : VarId) (x : R) :
  u <> v -> get_value (set_value st v x) u = get_value st u.
Proof.
  intros Huv. unfold get_value, set_value.
  destruct (Nat.eqb_spec u v); [contradiction | reflexivity].
Qed.

(** ** The warm-up schedule *)

Lemma beta_after_0 (kappa : R) : beta_after kappa 0 = 0.
Proof. reflexivity. Qed.

Lemma beta_after_S (kappa : R) (n : nat) :
  beta_after kappa (S n) =
  if Rle_dec (beta_after kappa n) 1
  then beta_after kappa n + kappa
  else beta_after kappa n.
Proof.
  unfold beta_after. simpl. unfold WarmUpCallback.on_epoch_end. simpl.
  destruct (Rle_dec _ 1) as [Hle | Hgt].
  - now rewrite get_set_same.
  - reflexivity.
Qed.






(** ** The graph the function builds *)

Lemma build_vae_graph (st : Store) (D I L : nat) (eps : R) :
  snd (build_vae st D I L eps empty_graph) = vae_graph D I L.
Proof. reflexivity. Qed.

Lemma build_vae_net (st : Store) (D I L : nat) (eps : R) :
  let net := fst (build_vae st D I L eps empty_graph) in
  let x := Placeholder 0 in
  let hidden := (Apply 2 (Apply 1 (Apply 0 x)))%nat in
  let zm := (Apply 5 (Apply 4 (Apply 3 hidden)))%nat in
  let zlv := (Apply 8 (Apply 7 (Apply 6 x)))%nat in
  let zs := sampling eps (zm, zlv) in
  rnaseq_input net = x /\
  hidden_encoded net = hidden /\
  z_mean_encoded net = zm /\
  z_log_var_encoded net = zlv /\
  z net = zs /\
  decoder_model net = [9; 10]%nat /\
  rnaseq_reconstruct net = (Apply 10 (Apply 9 zs))%nat /\
  vae net = {| inputs := x; outputs := x |} /\
  vae_losses net =
    [CustomVariationalLayer.vae_loss st D zm zlv x (Apply 10 (Apply 9 zs))%nat].
Proof. repeat split. Qed.

(** ** The callback inside [fit] *)

Lemma fit_store (g : Graph) (m : Model) (loss : Tensor) (opt : Optimizer)
  (vn : nat -> nat -> nat -> R) (x v : list (list R))
  (cb : WarmUpCallback.t) (init : TrainState) (n : nat) :
  ts_store (fit g m loss opt vn x v [cb] init n) =
  after_epochs cb n (ts_store init).
Proof.
  induction n as [| n IH]; [reflexivity |].
  simpl. destruct (opt n _ x _) as [w epoch_loss]. simpl.
  now rewrite IH.
Qed.


Lemma body_beta (permutation : Z -> nat -> list nat) (w0 : Weights)
  (Adam : R -> nat -> Optimizer) (vn : nat -> nat -> nat -> R)
  (pn : nat -> nat -> R) (lr : R) (batch_size epochs : nat) (kappa : R)
  (I L : nat) (eps : R) (rnaseq : DataFrame) :
  get_value
    (ts_store
       (hist (body permutation w0 Adam vn pn lr batch_size epochs kappa I L
                eps rnaseq)))
    beta =
  beta_after kappa epochs.
Proof.
  unfold body. simpl. now rewrite fit_store.
Qed.


(** ** Rounding the size of the test set *)

Lemma py_round_tenth_bounds (a : Z) :
  (0 <= a)%Z ->
  (0 <= py_round (test_set_percent * inject_Z a) <= a)%Z.
Proof.
  intros Ha. unfold py_round, test_set_percent.
  set (q := ((1 # 10) * inject_Z a)%Q).
  pose proof (Qfloor_le q) as Hlo.
  assert (Hq0 : (0 <= q)%Q).
  { unfold q. rewrite Zle_Qle in Ha. change (inject_Z 0) with 0%Q in Ha. lra. }
  assert (Hf0 : (0 <= Qfloor q)%Z).
  { change 0%Z with (Qfloor 0). now apply Qfloor_resp_le. }
  assert (HqA : (q == (1 # 10) * inject_Z a)%Q) by reflexivity.
  assert (HA : (0 <= inject_Z a)%Q).
  { rewrite Zle_Qle in Ha. exact Ha. }
  assert (HF : (0 <= inject_Z (Qfloor q))%Q).
  { rewrite Zle_Qle in Hf0. exact Hf0. }
  assert (Hfa : (Qfloor q <= a)%Z).
  { rewrite Zle_Qle. lra. }
  assert (Hup : (1 # 2 <= q - inject_Z (Qfloor q))%Q -> (Qfloor q + 1 <= a)%Z).
  { intros Hd. rewrite Zle_Qle, inject_Z_plus.
    change (inject_Z 1) with 1%Q. lra. }
  destruct (Qcompare (q - inject_Z (Qfloor q)) (1 # 2)) eqn:Hc.
  - apply Qeq_alt in Hc.
    assert (Hd : (1 # 2 <= q - inject_Z (Qfloor q))%Q) by lra.
    specialize (Hup Hd). destruct (Z.even (Qfloor q)); lia.
  - lia.
  - apply Qgt_alt in Hc.
    assert (Hd : (1 # 2 <= q - inject_Z (Qfloor q))%Q) by lra.
    specialize (Hup Hd). lia.
Qed.

(** Ties go to the even neighbour: of 5, 15 and 25 rows, 0, 2 and 2 are
    sampled; of 10 and 26 rows, 1 and 3. *)
Example py_round_ties :
  map (fun N => py_round (test_set_percent * inject_Z N)) [5; 15; 25; 10; 26]%Z
  = [0; 2; 2; 1; 3]%Z.
Proof. reflexivity. Qed.

Lemma test_size_le (N : nat) :
  (Z.to_nat (py_round (test_set_percent * inject_Z (Z.of_nat N))) <= N)%nat.
Proof.
  pose proof (py_round_tenth_bounds (Z.of_nat N) (Nat2Z.is_nonneg N)). lia.
Qed.

(** ** Taking and dropping rows *)

Lemma label_eqb_eq (a b : Label) : label_eqb a b = true <-> a = b.
Proof.
  destruct a as [s | i], b as [s' | i']; simpl.
  - rewrite String.eqb_eq. split; congruence.
  - split; discriminate.
  - split; discriminate.
  - rewrite Z.eqb_eq. split; congruence.
Qed.

Lemma mem_label_In (a : Label) (l : list Label) :
  mem_label a l = true <-> In a l.
Proof.
  unfold mem_label. rewrite existsb_exists. split.
  - intros (b & Hb & Hab). apply label_eqb_eq in Hab. now subst.
  - intros Ha. exists a. split; [exact Ha | now apply label_eqb_eq].
Qed.

Section Pick.

Context {A : Type}.

Lemma pick_In (locs : list nat) (l : list A) (x : A) :
  In x (pick locs l) <-> exists i, In i locs /\ nth_error l i = Some x.
Proof.
  unfold pick. rewrite in_flat_map. split.
  - intros (i & Hi & Hx). exists i. split; [exact Hi |].
    destruct (nth_error l i) as [y |]; simpl in Hx; [| contradiction].
    destruct Hx as [-> | []]. reflexivity.
  - intros (i & Hi & Hx). exists i. split; [exact Hi |].
    rewrite Hx. now left.
Qed.

Lemma pick_length (locs : list nat) (l : list A) :
  Forall (fun i => (i < length l)%nat) locs ->
  length (pick locs l) = length locs.
Proof.
  induction 1 as [| i locs Hi _ IH]; [reflexivity |].
  unfold pick in *. simpl. rewrite length_app, IH.
  apply nth_error_Some in Hi.
  destruct (nth_error l i); [reflexivity | congruence].
Qed.

Lemma pick_NoDup (locs : list nat) (l : list A) :
  NoDup locs -> NoDup l -> NoDup (pick locs l).
Proof.
  intros Hlocs Hl. induction Hlocs as [| i locs Hi Hlocs IH].
  - constructor.
  - change (pick (i :: locs) l)
      with (match nth_error l i with Some x => [x] | None => [] end
            ++ pick locs l).
    destruct (nth_error l i) as [x |] eqn:Hx; [| exact IH].
    simpl. constructor; [| exact IH].
    rewrite pick_In. intros (j & Hj & Hxj).
    assert (i = j).
    { apply (proj1 (NoDup_nth_error l) Hl).
      - apply nth_error_Some. congruence.
      - congruence. }
    subst j. contradiction.
Qed.

Lemma pick_incl (locs : list nat) (l : list A) (x : A) :
  In x (pick locs l) -> In x l.
Proof.
  rewrite pick_In. intros (i & _ & Hx). eapply nth_error_In; eauto.
Qed.

End Pick.

Lemma map_pick {A B : Type} (f : A -> B) (locs : list nat) (l : list A) :
  map f (pick locs l) = pick locs (map f l).
Proof.
  induction locs as [| i locs IH]; [reflexivity |].
  unfold pick in *. simpl. rewrite map_app, IH. f_equal.
  rewrite nth_error_map. destruct (nth_error l i); reflexivity.
Qed.

Lemma NoDup_map_fst_inj {A B : Type} (l : list (A * B)) (a b : A * B) :
  NoDup (map fst l) -> In a l -> In b l -> fst a = fst b -> a = b.
Proof.
  induction l as [| c l IH]; simpl; [contradiction |].
  intros Hnd Ha Hb Hab. inversion Hnd as [| ? ? Hc Hl]; subst.
  destruct Ha as [-> | Ha], Hb as [-> | Hb].
  - reflexivity.
  - exfalso. apply Hc. rewrite Hab. now apply in_map.
  - exfalso. apply Hc. rewrite <- Hab. now apply in_map.
  - now apply IH.
Qed.

(** ** The train/test split *)

Lemma sample_rows (permutation : Z -> nat -> list nat) (frac : Q) (seed : Z)
  (df : DataFrame) :
  rows (sample permutation frac seed df) =
  pick
    (firstn (Z.to_nat (py_round (frac * inject_Z (Z.of_nat (length (rows df))))))
       (permutation seed (length (rows df))))
    (rows df).
Proof. reflexivity. Qed.

Lemma drop_complement (test : list (Label * list R)) (df : DataFrame) :
  NoDup (index df) -> NoDup test -> (forall x, In x test -> In x (rows df)) ->
  Permutation (test ++ rows (drop (map fst test) df)) (rows df).
Proof.
  intros Hix Htest Hincl. unfold index in Hix.
  assert (Hrows : NoDup (rows df)) by (eapply NoDup_map_inv; eauto).
  simpl. apply NoDup_Permutation.
  - apply NoDup_app; [exact Htest | now apply NoDup_filter |].
    intros x Hx Hf. apply filter_In in Hf as [_ Hf].
    apply negb_true_iff in Hf.
    assert (mem_label (fst x) (map fst test) = true) as Hm.
    { apply mem_label_In. now apply in_map. }
    congruence.
  - exact Hrows.
  - intros x. rewrite in_app_iff, filter_In. split.
    + intros [Hx | [Hx _]]; [now apply Hincl | exact Hx].
    + intros Hx.
      destruct (mem_label (fst x) (map fst test)) eqn:Hm.
      * left. apply mem_label_In in Hm. apply in_map_iff in Hm.
        destruct Hm as (t & Hfst & Ht).
        assert (t = x) as <-; [| exact Ht].
        apply (NoDup_map_fst_inj (rows df)); auto.
      * right. split; [exact Hx | reflexivity].
Qed.

(** C4. For a table of [N] rows with distinct labels, the test frame is the
    rows at the first [n = round(0.1 * N)] positions of the permutation
    numpy draws for seed 123 (so: [n] rows, none twice), the train frame is
    the other [N - n] rows, no label is in both, the two together are the
    rows of the table, and the split depends on the generator only through
    that one permutation: another run with the same table and the same seed
    gives the same two frames, rows in the same order. *)
Theorem split_spec (permutation : Z -> nat -> list nat) (w0 : Weights)
  (Adam : R -> nat -> Optimizer) (vn : nat -> nat -> nat -> R)
  (pn : nat -> nat -> R) (lr : R) (batch_size epochs : nat) (kappa : R)
  (I L : nat) (eps : R) (rnaseq : DataFrame) :
  let N := length (rows rnaseq) in
  let n := Z.to_nat (py_round ((1 # 10) * inject_Z (Z.of_nat N))) in
  let run := fun p =>
    body p w0 Adam vn pn lr batch_size epochs kappa I L eps rnaseq in
  let test := rnaseq_test_df (run permutation) in
  let train := rnaseq_train_df (run permutation) in
  Permutation (permutation 123%Z N) (seq 0 N) ->
  NoDup (index rnaseq) ->
  rows test = pick (firstn n (permutation 123%Z N)) (rows rnaseq) /\
  length (rows test) = n /\
  length (rows train) = (N - n)%nat /\
  NoDup (index test) /\
  (forall a, In a (index test) -> ~ In a (index train)) /\
  Permutation (rows test ++ rows train) (rows rnaseq) /\
  (forall permutation' : Z -> nat -> list nat,
     permutation' 123%Z N = permutation 123%Z N ->
     rnaseq_test_df (run permutation') = test /\
     rnaseq_train_df (run permutation') = train).
Proof.
  intros N n run test train Hperm Hix.
  assert (Htest : rows test = pick (firstn n (permutation 123%Z N)) (rows rnaseq))
    by reflexivity.
  assert (Htrain : train = drop (map fst (rows test)) rnaseq) by reflexivity.
  set (locs := firstn n (permutation 123%Z N)) in *.
  assert (Hn : (n <= N)%nat) by apply test_size_le.
  assert (Hlen : length (permutation 123%Z N) = N).
  { rewrite (Permutation_length Hperm). apply length_seq. }
  assert (Hnd : NoDup locs).
  { assert (NoDup (permutation 123%Z N)) as Hp.
    { eapply Permutation_NoDup; [apply Permutation_sym; exact Hperm |].
      apply seq_NoDup. }
    rewrite <- (firstn_skipn n) in Hp. now apply NoDup_app_remove_r in Hp. }
  assert (Hlt : Forall (fun i => (i < length (rows rnaseq))%nat) locs).
  { apply Forall_forall. intros i Hi.
    assert (In i (permutation 123%Z N)) as Hin.
    { rewrite <- (firstn_skipn n). apply in_or_app. now left. }
    apply (Permutation_in _ Hperm) in Hin. apply in_seq in Hin. fold N. lia. }
  assert (Hrows : NoDup (rows rnaseq)) by (eapply NoDup_map_inv; exact Hix).
  assert (Hndt : NoDup (rows test)).
  { rewrite Htest. now apply pick_NoDup. }
  assert (Hincl : forall x, In x (rows test) -> In x (rows rnaseq)).
  { intros x. rewrite Htest. apply pick_incl. }
  assert (Hlt_test : length (rows test) = n).
  { rewrite Htest, pick_length by exact Hlt. unfold locs.
    rewrite length_firstn, Hlen. lia. }
  pose proof (drop_complement (rows test) rnaseq Hix Hndt Hincl) as Hcover.
  rewrite <- Htrain in Hcover.
  refine (conj Htest (conj Hlt_test (conj _ (conj _ (conj _ (conj Hcover _)))))).
  - apply Permutation_length in Hcover. rewrite length_app in Hcover.
    fold N in Hcover. lia.
  - unfold index. rewrite Htest, map_pick. apply pick_NoDup; assumption.
  - intros a Ha Hb. rewrite Htrain in Hb. unfold index in Hb. simpl in Hb.
    apply in_map_iff in Hb as (x & Hfst & Hx).
    apply filter_In in Hx as [_ Hx]. apply negb_true_iff in Hx.
    assert (mem_label (fst x) (map fst (rows test)) = true) as Hm.
    { apply mem_label_In. now rewrite Hfst. }
    change (mem_label (fst x) (map fst (rows test)) = false) in Hx.
    congruence.
  - intros permutation' Heq. unfold test, train, run, body. simpl.
    unfold sample, randomState. fold N. rewrite Heq. split; reflexivity.
Qed.

(** ** The read comes first *)

Lemma io_bind_raise {A B : Type} (m : IO A) (k : A -> IO B) (e : Exception)
  (out out' : Written) :
  m out = (inl e, out') -> io_bind m k out = (inl e, out').
Proof. intros Hm. unfold io_bind. now rewrite Hm. Qed.

(** C9. When reading the input table fails, the function raises the read
    error at once and writes nothing: the files are as they were before the
    call. *)
Theorem read_failure_writes_nothing (permutation : Z -> nat -> list nat)
  (w0 : Weights) (Adam : R -> nat -> Optimizer) (vn : nat -> nat -> nat -> R)
  (pn : nat -> nat -> R) (fs : FileSystem) (lr : R)
  (batch_size epochs : nat) (kappa : R) (I L : nat) (eps : R)
  (base_dir analysis_name : string) (out : Written) :
  fs_read fs (data_file base_dir analysis_name) = None ->
  tybalt_2layer_model permutation w0 Adam vn pn fs lr batch_size epochs kappa
    I L eps base_dir analysis_name out =
  (inl (ReadError (data_file base_dir analysis_name)), out).
Proof.
  intros Hread. unfold tybalt_2layer_model.
  apply io_bind_raise. unfold locals. apply io_bind_raise.
  unfold read_table. now rewrite Hread.
Qed.

(** Said the other way round: a call that wrote any file had read its
    input. *)
Lemma writes_follow_the_read (permutation : Z -> nat -> list nat)
  (w0 : Weights) (Adam : R -> nat -> Optimizer) (vn : nat -> nat -> nat -> R)
  (pn : nat -> nat -> R) (fs : FileSystem) (lr : R)
  (batch_size epochs : nat) (kappa : R) (I L : nat) (eps : R)
  (base_dir analysis_name : string) (out : Written) :
  snd (tybalt_2layer_model permutation w0 Adam vn pn fs lr batch_size epochs
         kappa I L eps base_dir analysis_name out) <> out ->
  exists rnaseq, fs_read fs (data_file base_dir analysis_name) = Some rnaseq.
Proof.
  intros Hwrote.
  destruct (fs_read fs (data_file base_dir analysis_name)) as [rnaseq |] eqn:Hr.
  - now exists rnaseq.
  - exfalso. apply Hwrote. unfold tybalt_2layer_model.
    erewrite io_bind_raise; [reflexivity |].
    unfold locals. apply io_bind_raise. unfold read_table. now rewrite Hr.
Qed.

(** ** The split and the parameters of the function *)

(** C10. The fraction (0.1) and the seed (123) of the split are constants of
    the function.  Two calls that read the same table make the same test
    frame and the same train frame whatever their parameters, files and
    training machinery are: both take the rows pandas samples for fraction
    0.1 and seed 123. *)
Theorem split_ignores_parameters (permutation : Z -> nat -> list nat)
  (w0 w0' : Weights) (Adam Adam' : R -> nat -> Optimizer)
  (vn vn' : nat -> nat -> nat -> R) (pn pn' : nat -> nat -> R)
  (fs fs' : FileSystem) (learning_rate learning_rate' : R)
  (batch_size batch_size' epochs epochs' : nat) (kappa kappa' : R)
  (intermediate_dim intermediate_dim' latent_dim latent_dim' : nat)
  (epsilon_std epsilon_std' : R)
  (base_dir base_dir' analysis_name analysis_name' : string)
  (rnaseq : DataFrame) (out out' : Written) :
  fs_read fs (data_file base_dir analysis_name) = Some rnaseq ->
  fs_read fs' (data_file base_dir' analysis_name') = Some rnaseq ->
  exists l l' : Locals,
    locals permutation w0 Adam vn pn fs learning_rate batch_size epochs kappa
      intermediate_dim latent_dim epsilon_std base_dir analysis_name out =
    (inr l, out) /\
    locals permutation w0' Adam' vn' pn' fs' learning_rate' batch_size'
      epochs' kappa' intermediate_dim' latent_dim' epsilon_std' base_dir'
      analysis_name' out' =
    (inr l', out') /\
    rnaseq_test_df l = sample permutation (1 # 10) 123%Z rnaseq /\
    rnaseq_train_df l = drop (index (rnaseq_test_df l)) rnaseq /\
    rnaseq_test_df l' = rnaseq_test_df l /\
    rnaseq_train_df l' = rnaseq_train_df l.
Proof.
  intros Hread Hread'.
  eexists. eexists.
  split; [| split].
  - unfold locals, io_bind, read_table. rewrite Hread. reflexivity.
  - unfold locals, io_bind, read_table. rewrite Hread'. reflexivity.
  - repeat split.
Qed.

(** ** What the value of a tensor depends on *)

Lemma mapi_from_ext {A B : Type} (f g : nat -> A -> B) (l : list A) (i : nat) :
  (forall j x, f j x = g j x) -> mapi_from i f l = mapi_from i g l.
Proof.
  intros Hfg. revert i. induction l as [| x l IH]; intros i; simpl.
  - reflexivity.
  - now rewrite Hfg, IH.
Qed.

Lemma random_normal_ext (n1 n2 : nat -> nat -> R) (mean stddev : R) (a : Val) :
  (forall i j, n1 i j = n2 i j) ->
  random_normal n1 mean stddev a = random_normal n2 mean stddev a.
Proof.
  intros Hn. destruct a as [x | v | m]; simpl; unfold mapi.
  - now rewrite Hn.
  - f_equal. apply mapi_from_ext. intros j _. now rewrite Hn.
  - f_equal. apply mapi_from_ext. intros i row.
    apply mapi_from_ext. intros j _. now rewrite Hn.
Qed.

Lemma eval_ext (layers : list LayerKind) (r1 r2 : Run) (t : Tensor) :
  (forall p, feed r1 p = feed r2 p) ->
  training r1 = training r2 ->
  (forall v, In v (variables_of t) ->
             get_value (store r1) v = get_value (store r2) v) ->
  (forall l, In l (layers_of t) -> weights r1 l = weights r2 l) ->
  (stochastic t = true -> forall i j, normal r1 i j = normal r2 i j) ->
  eval layers r1 t = eval layers r2 t.
Proof.
  intros Hfeed Hphase.
  induction t as [p | c | v | l x IH | like IH mean stddev
                  | a IHa b IHb | a IHa b IHb | a IHa b IHb | a IHa b IHb
                  | a IH | a IH | a IH | a IH | a IH | a IHa b IHb];
    simpl; intros Hv Hw Hn;
    try (rewrite IHa, IHb;
         [ reflexivity
         | intros; apply Hv, in_or_app; now right
         | intros; apply Hw, in_or_app; now right
         | intros Hs; apply Hn; rewrite Hs; apply orb_true_r
         | intros; apply Hv, in_or_app; now left
         | intros; apply Hw, in_or_app; now left
         | intros Hs; apply Hn; now rewrite Hs ]);
    try (rewrite IH; auto; fail).
  - apply Hfeed.
  - reflexivity.
  - f_equal. apply Hv. now left.
  - rewrite IH, Hphase, (Hw l); auto.
  - rewrite IH; auto.
    apply random_normal_ext. now apply Hn.
Qed.

(** ** The loss in closed form *)

Lemma map2_fst_snd {A B C : Type} (f : A -> B -> C) (l : list (A * B)) :
  map2 f (map fst l) (map snd l) = map (fun p => f (fst p) (snd p)) l.
Proof.
  induction l as [| p l IH]; simpl; [reflexivity | now rewrite IH].
Qed.

Lemma kl_row (l : list (R * R)) :
  map2 Rminus
    (map2 Rminus (map (Rplus 1) (map snd l)) (map Rsqr (map fst l)))
    (map exp (map snd l)) =
  map (fun p => 1 + snd p - Rsqr (fst p) - exp (snd p)) l.
Proof.
  induction l as [| p l IH]; simpl; [reflexivity | now rewrite IH].
Qed.

Lemma loss_rows (D c : R) (batch : list Sample) :
  map2 Rplus
    (map (Rmult D)
       (map rmean
          (map2 (map2 K_binary_crossentropy) (input_of batch)
             (reconstruction_of batch))))
    (map (Rmult c)
       (map (Rmult (- (1 / 2)))
          (map rsum
             (map2 (map2 Rminus)
                (map2 (map2 Rminus) (map (map (Rplus 1)) (z_log_var_of batch))
                   (map (map Rsqr) (z_mean_of batch)))
                (map (map exp) (z_log_var_of batch)))))) =
  map (fun s =>
         D * rmean (map (fun p => K_binary_crossentropy (fst p) (snd p))
                      (genes s)) +
         c * kl_term s) batch.
Proof.
  unfold input_of, reconstruction_of, z_mean_of, z_log_var_of.
  induction batch as [| s batch IH]; simpl; [reflexivity |].
  rewrite IH. unfold kl_term. now rewrite map2_fst_snd, kl_row.
Qed.

(** The loss tensor the custom layer builds with the store [st] evaluates,
    in every later run, to the closed form with the value [beta] had in
    [st]. *)
Lemma eval_vae_loss (layers : list LayerKind) (r : Run) (st : Store) (D : nat)
  (zm zlv x xd : Tensor) (batch : list Sample) :
  eval layers r x = VM (input_of batch) ->
  eval layers r xd = VM (reconstruction_of batch) ->
  eval layers r zm = VM (z_mean_of batch) ->
  eval layers r zlv = VM (z_log_var_of batch) ->
  eval layers r (CustomVariationalLayer.vae_loss st D zm zlv x xd) =
  VS (batch_loss D (get_value st beta) batch).
Proof.
  intros Hx Hxd Hzm Hzlv. simpl. rewrite Hx, Hxd, Hzm, Hzlv. simpl.
  unfold batch_loss, reconstruction_term. now rewrite loss_rows.
Qed.

(** ** The coefficient of the KL term *)

(** C2. In the loss the function's model is compiled with, the KL term is
    multiplied by a constant of the graph, the number [beta] held when the
    graph was built, which is 0; the loss reads no backend variable.  So
    whatever the callback has stored in [beta] by the time the loss runs, the
    loss computes the same number on the same parameters, batch and
    variates. *)
Theorem compiled_loss_ignores_beta (permutation : Z -> nat -> list nat)
  (w0 : Weights) (Adam : R -> nat -> Optimizer) (vn : nat -> nat -> nat -> R)
  (pn : nat -> nat -> R) (lr : R) (batch_size epochs : nat) (kappa : R)
  (I L : nat) (eps : R) (rnaseq : DataFrame) :
  let l := body permutation w0 Adam vn pn lr batch_size epochs kappa I L eps
             rnaseq in
  let loss := total_loss (vae_losses (net l)) in
  (exists reconstruction_loss kl_loss : Tensor,
     loss =
     Add (Constant 0)
       (Mean (Add reconstruction_loss (Mul (Constant 0) kl_loss)))) /\
  variables_of loss = [] /\
  (forall (st1 st2 : Store) (phase : bool) (w : Weights)
          (batch : list (list R)) (nrm : nat -> nat -> R),
     objective (graph l) (vae (net l)) loss st1 phase w batch nrm =
     objective (graph l) (vae (net l)) loss st2 phase w batch nrm).
Proof.
  intros l loss.
  assert (Hvars : variables_of loss = []) by reflexivity.
  split; [| split].
  - eexists. eexists. reflexivity.
  - exact Hvars.
  - intros st1 st2 phase w batch nrm. unfold objective. apply f_equal.
    apply eval_ext; try reflexivity.
    intros v Hv. rewrite Hvars in Hv. contradiction.
Qed.

Lemma rmax_l_0 (x y : R) : Rmax (0 * x / y + 1) 0 = 1.
Proof. unfold Rdiv. rewrite !Rmult_0_l, Rplus_0_l. apply Rmax_left. lra. Qed.

Lemma rmax_r_0 (x y : R) : Rmax (0 * x / y + 0) 0 = 0.
Proof. unfold Rdiv. rewrite !Rmult_0_l, Rplus_0_l. apply Rmax_left. lra. Qed.

(** C1 fails on the function.  After one epoch with [kappa = 1] the cell
    [beta] holds 1.  On a batch of one sample whose latent mean is 1 and
    log-variance 0 (KL term 1/2), the loss of the model is the closed form
    with coefficient 0, the value of [beta] when the graph was built, and
    not the closed form with the value [beta] has now. *)
Theorem loss_keeps_the_initial_beta :
  let l := body reversed example_weights idle_optimizer zeros3 zeros2
             (1 / 1000) 1 1 1 1 1 1 example_table in
  let loss := total_loss (vae_losses (net l)) in
  let r := {| feed := feed_of (inputs (vae (net l))) (VM [[1]]);
              store := ts_store (hist l);
              weights := example_weights;
              training := false;
              normal := zeros2 |} in
  let run := eval (g_layers (graph l)) r in
  get_value (store r) beta = 1 /\
  run (rnaseq_input (net l)) = VM (input_of example_batch) /\
  run (rnaseq_reconstruct (net l)) = VM (reconstruction_of example_batch) /\
  run (z_mean_encoded (net l)) = VM (z_mean_of example_batch) /\
  run (z_log_var_encoded (net l)) = VM (z_log_var_of example_batch) /\
  item (run loss) = batch_loss (original_dim l) 0 example_batch /\
  item (run loss) <>
  batch_loss (original_dim l) (get_value (store r) beta) example_batch.
Proof.
  intros l loss r run.
  assert (Hbeta : get_value (store r) beta = 1).
  { unfold r, l. cbn [store]. rewrite body_beta, beta_after_S, beta_after_0.
    destruct (Rle_dec 0 1); lra. }
  assert (Hx : run (rnaseq_input (net l)) = VM (input_of example_batch))
    by reflexivity.
  assert (Hzm : run (z_mean_encoded (net l)) = VM (z_mean_of example_batch)).
  { unfold run, r, l, body. cbn -[hist fit]. now rewrite rmax_l_0. }
  assert (Hzlv : run (z_log_var_encoded (net l)) =
                 VM (z_log_var_of example_batch)).
  { unfold run, r, l, body. cbn -[hist fit]. now rewrite rmax_r_0. }
  assert (Hxd : run (rnaseq_reconstruct (net l)) =
                VM (reconstruction_of example_batch)).
  { unfold run, r, l, body. cbn -[hist fit].
    rewrite !Rmult_0_r, !Rplus_0_l, Ropp_0, exp_0.
    replace (1 / (1 + 1)) with (1 / 2) by lra. reflexivity. }
  assert (Hloss : item (run loss) = batch_loss (original_dim l) 0 example_batch).
  { unfold loss.
    change (total_loss (vae_losses (net l)))
      with (Add (Constant 0)
              (CustomVariationalLayer.vae_loss initial_store (original_dim l)
                 (z_mean_encoded (net l)) (z_log_var_encoded (net l))
                 (rnaseq_input (net l)) (rnaseq_reconstruct (net l)))).
    unfold run in *. cbn [eval].
    rewrite (eval_vae_loss _ _ _ _ _ _ _ _ example_batch Hx Hxd Hzm Hzlv).
    cbn [broadcast item]. change (get_value initial_store beta) with 0. lra. }
  refine (conj Hbeta (conj Hx (conj Hxd (conj Hzm (conj Hzlv (conj Hloss _)))))).
  rewrite Hloss, Hbeta.
  unfold batch_loss, example_batch, rmean, rsum, kl_term. cbn [map fold_right latent length INR snd fst].
  set (rc := reconstruction_term _ _).
  unfold rsum. cbn [fold_right]. rewrite exp_0. unfold Rsqr.
  intros Heq. lra.
Qed.

(** ** The sampler *)

Lemma mapi_from_map {A B C : Type} (f : nat -> B -> C) (g : A -> B)
  (l : list A) (i : nat) :
  mapi_from i f (map g l) = mapi_from i (fun j x => f j (g x)) l.
Proof.
  revert i. induction l as [| x l IH]; intros i; simpl;
    [reflexivity | now rewrite IH].
Qed.

Lemma length_mapi_from {A B : Type} (f : nat -> A -> B) (l : list A) (i : nat) :
  length (mapi_from i f l) = length l.
Proof.
  revert i. induction l as [| x l IH]; intros i; simpl;
    [reflexivity | now rewrite IH].
Qed.

Lemma shape_mapi_from {A B : Type} (f : nat -> nat -> A -> B)
  (m : list (list A)) (i0 : nat) :
  map (@length B) (mapi_from i0 (fun i row => mapi_from 0 (f i) row) m) =
  map (@length A) m.
Proof.
  revert i0. induction m as [| row m IH]; intros i0; simpl;
    [reflexivity | now rewrite IH, length_mapi_from].
Qed.

Lemma sampling_row (e : nat -> R) (row : list (R * R)) (j0 : nat) :
  map2 Rplus (map fst row)
    (map2 Rmult (map exp (map (fun x => x / 2) (map snd row)))
       (mapi_from j0 (fun j _ => e j) (map fst row))) =
  mapi_from j0 (fun j p => fst p + exp (snd p / 2) * e j) row.
Proof.
  revert j0. induction row as [| p row IH]; intros j0; simpl;
    [reflexivity | now rewrite IH].
Qed.

Lemma sampling_rows (e : nat -> nat -> R) (P : list (list (R * R))) (i0 : nat) :
  map2 (map2 Rplus) (map (map fst) P)
    (map2 (map2 Rmult)
       (map (map exp) (map (map (fun x => x / 2)) (map (map snd) P)))
       (mapi_from i0 (fun i row => mapi_from 0 (fun j _ => e i j) row)
          (map (map fst) P))) =
  mapi_from i0
    (fun i row => mapi_from 0 (fun j p => fst p + exp (snd p / 2) * e i j) row)
    P.
Proof.
  revert i0. induction P as [| row P IH]; intros i0; simpl;
    [reflexivity |].
  now rewrite IH, sampling_row.
Qed.

(** C5. In a run of the graph in which [z_mean] and [z_log_var] have the
    values [m] and [v] entry by entry, the sampler draws [epsilon] with the
    shape of [z_mean], entry [(i, j)] being [0 + epsilon_std] times the
    standard normal variate the generator yields for that entry in this run,
    and returns [m + exp (v / 2) * epsilon] entry by entry.  Its value is a
    function of these inputs and of the variates of the run alone: any other
    run with the same inputs and the same variates gives the same [z],
    whatever its store, parameters and phase; nothing is carried from run to
    run. *)
Theorem sampling_spec (layers : list LayerKind) (r : Run) (epsilon_std : R)
  (z_mean z_log_var : Tensor) (P : list (list (R * R))) :
  eval layers r z_mean = VM (map (map fst) P) ->
  eval layers r z_log_var = VM (map (map snd) P) ->
  let epsilon :=
    mapi (fun i row => mapi (fun j _ => 0 + epsilon_std * normal r i j) row)
      P in
  eval layers r (RandomNormal z_mean 0 epsilon_std) = VM epsilon /\
  map (@length R) epsilon = map (@length R) (map (map fst) P) /\
  eval layers r (sampling epsilon_std (z_mean, z_log_var)) =
  VM (mapi
        (fun i row =>
           mapi (fun j p =>
                   fst p + exp (snd p / 2) * (0 + epsilon_std * normal r i j))
             row)
        P) /\
  (forall r' : Run,
     eval layers r' z_mean = eval layers r z_mean ->
     eval layers r' z_log_var = eval layers r z_log_var ->
     (forall i j, normal r' i j = normal r i j) ->
     eval layers r' (sampling epsilon_std (z_mean, z_log_var)) =
     eval layers r (sampling epsilon_std (z_mean, z_log_var))).
Proof.
  intros Hm Hv epsilon.
  assert (Heps : eval layers r (RandomNormal z_mean 0 epsilon_std) = VM epsilon).
  { simpl. rewrite Hm. simpl. unfold epsilon, mapi. f_equal.
    rewrite mapi_from_map. apply mapi_from_ext. intros i row.
    now rewrite mapi_from_map. }
  split; [exact Heps |]. split; [| split].
  - unfold epsilon, mapi. rewrite shape_mapi_from, map_map.
    apply map_ext. intros row. now rewrite length_map.
  - simpl. rewrite Hm, Hv. simpl. unfold mapi. f_equal.
    apply (sampling_rows (fun i j => 0 + epsilon_std * normal r i j)).
  - intros r' Hm' Hv' Hn. simpl. rewrite Hm', Hv'.
    now rewrite (random_normal_ext (normal r') (normal r)).
Qed.

(** ** The encoder *)

(** C6. In the graph of the function, the hidden representation is
    [relu (batchnorm (dense x))] on the input [x], [z_mean] is
    [relu (batchnorm (dense hidden))] on the hidden representation, and
    [z_log_var] is [relu (batchnorm (dense x))] on the input itself: it goes
    through none of the layers of the hidden representation.  Each of the
    nine steps is a layer instance of its own, and every dense layer the
    encoder goes through is initialized glorot uniform. *)
Theorem encoder_architecture (permutation : Z -> nat -> list nat)
  (w0 : Weights) (Adam : R -> nat -> Optimizer) (vn : nat -> nat -> nat -> R)
  (pn : nat -> nat -> R) (lr : R) (batch_size epochs : nat) (kappa : R)
  (I L : nat) (eps : R) (rnaseq : DataFrame) :
  let l := body permutation w0 Adam vn pn lr batch_size epochs kappa I L eps
             rnaseq in
  let layers := g_layers (graph l) in
  let x := rnaseq_input (net l) in
  let hidden := hidden_encoded (net l) in
  let z_mean := z_mean_encoded (net l) in
  let z_log_var := z_log_var_encoded (net l) in
  let dense_bn_relu := fun (r : Run) (dense bn : LayerId) (units : nat) a =>
    pointwise (activate relu)
      (VM (batch_normalization (weights r bn) (training r)
             (map (dense_row (weights r dense) units linear) (rows_of a)))) in
  (hidden = Apply 2 (Apply 1 (Apply 0 x)) /\
   z_mean = Apply 5 (Apply 4 (Apply 3 hidden)) /\
   z_log_var = Apply 8 (Apply 7 (Apply 6 x)))%nat /\
  (map (nth_error layers) (seq 0 9) =
   map Some
     [Dense I linear glorot_uniform; BatchNormalization; Activation relu;
      Dense L linear glorot_uniform; BatchNormalization; Activation relu;
      Dense L linear glorot_uniform; BatchNormalization; Activation relu]) /\
  (forall r : Run,
     eval layers r hidden = dense_bn_relu r 0 1 I (eval layers r x) /\
     eval layers r z_mean = dense_bn_relu r 3 4 L (eval layers r hidden) /\
     eval layers r z_log_var = dense_bn_relu r 6 7 L (eval layers r x))%nat /\
  (forall i : LayerId, In i (layers_of z_log_var) -> ~ In i (layers_of hidden)) /\
  (forall (i : LayerId) (units : nat) (act : ActivationFn) (init : Initializer),
     In i (layers_of z_mean ++ layers_of z_log_var) ->
     nth_error layers i = Some (Dense units act init) ->
     init = glorot_uniform).
Proof.
  intros l layers x hidden z_mean z_log_var dense_bn_relu.
  split; [repeat split |]. split; [reflexivity |].
  split; [intros r; repeat split |]. split.
  - intros i Hi Hh. simpl in Hi, Hh. lia.
  - intros i units act init Hi Hd. simpl in Hi.
    repeat (destruct Hi as [<- | Hi];
            [simpl in Hd; congruence |]).
    contradiction.
Qed.

(** ** The decoder *)

(** C7. The decoder model is two dense layers, [intermediate_dim] units
    with relu and then [original_dim] units with sigmoid.  The model made for
    export calls the same two instances the training graph calls after the
    sampler, and adds no layer; so with any parameters [w] the exported
    decoder maps every batch of latent vectors to what the decoder inside the
    training graph maps it to: both apply [decode_row w] to each row. *)
Theorem decoder_shared (permutation : Z -> nat -> list nat)
  (w0 : Weights) (Adam : R -> nat -> Optimizer) (vn : nat -> nat -> nat -> R)
  (pn : nat -> nat -> R) (lr : R) (batch_size epochs : nat) (kappa : R)
  (I L : nat) (eps : R) (rnaseq : DataFrame) :
  let l := body permutation w0 Adam vn pn lr batch_size epochs kappa I L eps
             rnaseq in
  let D := original_dim l in
  let decoder := fst (build_decoder (net l) L (graph l)) in
  let g' := snd (build_decoder (net l) L (graph l)) in
  map (nth_error (g_layers (graph l))) (decoder_model (net l)) =
  [Some (Dense I relu glorot_uniform); Some (Dense D sigmoid glorot_uniform)] /\
  rnaseq_reconstruct (net l) =
  Sequential.call (decoder_model (net l)) (z (net l)) /\
  outputs decoder = Sequential.call (decoder_model (net l)) (inputs decoder) /\
  g_layers g' = g_layers (graph l) /\
  (forall (st : Store) (w : Weights) (nrm : nat -> nat -> R)
          (v : list (list R)),
     predict_on_batch g' decoder st w nrm v = VM (map (decode_row w I D) v)) /\
  (forall r : Run,
     eval (g_layers (graph l)) r (rnaseq_reconstruct (net l)) =
     VM (map (decode_row (weights r) I D)
           (rows_of (eval (g_layers (graph l)) r (z (net l)))))).
Proof.
  intros l D decoder g'.
  split; [reflexivity |]. split; [reflexivity |]. split; [reflexivity |].
  split; [reflexivity |]. split.
  - intros st w nrm v. unfold predict_on_batch. cbn -[dense_row].
    now rewrite map_map.
  - intros r.
    change (rnaseq_reconstruct (net l))
      with (Apply 10 (Apply 9 (z (net l))))%nat.
    cbn -[dense_row z]. now rewrite map_map.
Qed.

(** ** The encoded table *)

Lemma map_fst_combine {A B : Type} (l : list A) (l' : list B) :
  length l = length l' -> map fst (combine l l') = l.
Proof.
  revert l'. induction l as [| a l IH]; intros [| b l'] Hlen; simpl in *;
    try reflexivity; try discriminate.
  f_equal. apply IH. lia.
Qed.

Lemma map_snd_combine {A B : Type} (l : list A) (l' : list B) :
  length l = length l' -> map snd (combine l l') = l'.
Proof.
  revert l'. induction l as [| a l IH]; intros [| b l'] Hlen; simpl in *;
    try reflexivity; try discriminate.
  f_equal. apply IH. lia.
Qed.

Lemma length_encode_row (w : Weights) (I L : nat) (x : list R) :
  length (encode_row w I L x) = L.
Proof.
  unfold encode_row, bn_row, mapi, dense_row.
  now rewrite length_map, length_mapi_from, length_map, length_seq.
Qed.

Lemma range_index_add_1 (n : nat) :
  map (fun l => match l with Pos i => Pos (i + 1) | Name s => Name s end)
    (map (fun j => Pos (Z.of_nat j)) (seq 0 n)) =
  map (fun j => Pos (Z.of_nat j)) (seq 1 n).
Proof.
  rewrite <- seq_shift, !map_map. apply map_ext. intros j. f_equal. lia.
Qed.

Lemma predict_encoder (st : Store) (w : Weights)
  (nrm : nat -> nat -> R) (I L D : nat) (x : list (list R)) :
  eval (g_layers (vae_graph D I L))
    {| feed := feed_of (Placeholder 0) (VM x); store := st; weights := w;
       training := false; normal := nrm |}
    (Apply 5 (Apply 4 (Apply 3 (Apply 2 (Apply 1 (Apply 0 (Placeholder 0)))))))%nat =
  VM (map (encode_row w I L) x).
Proof.
  cbn -[dense_row]. unfold batch_normalization, encode_row, bn_row. cbn [rows_of].
  now rewrite !map_map.
Qed.

(** C8. The encoded table has one row for each row of the table read, in
    the same order and under the same labels (train and test rows alike).
    Row by row it is the mean branch outside training, applied with the
    trained parameters: the encoder model draws no random number and goes
    through none of the layers of the log-variance branch.  Every row has
    [latent_dim] entries, the columns are labelled 1 to [latent_dim], and
    the column index is named [sample_id]. *)
Theorem encoded_table_spec (permutation : Z -> nat -> list nat)
  (w0 : Weights) (Adam : R -> nat -> Optimizer) (vn : nat -> nat -> nat -> R)
  (pn : nat -> nat -> R) (lr : R) (batch_size epochs : nat) (kappa : R)
  (I L : nat) (eps : R) (rnaseq : DataFrame) :
  let l := body permutation w0 Adam vn pn lr batch_size epochs kappa I L eps
             rnaseq in
  let df := encoded_rnaseq_df l in
  index df = index rnaseq /\
  length (rows df) = length (rows rnaseq) /\
  values df = map (encode_row (ts_weights (hist l)) I L) (values rnaseq) /\
  outputs (encoder l) = z_mean_encoded (net l) /\
  stochastic (outputs (encoder l)) = false /\
  (forall i : LayerId,
     In i (layers_of (outputs (encoder l))) ->
     ~ In i (layers_of (z_log_var_encoded (net l)))) /\
  Forall (fun row => length row = L) (values df) /\
  labels (columns df) = map (fun j => Pos (Z.of_nat j)) (seq 1 L) /\
  name (columns df) = Some "sample_id"%string.
Proof.
  intros l df.
  assert (Hrows : rows df =
                  combine (index rnaseq)
                    (map (encode_row (ts_weights (hist l)) I L)
                       (values rnaseq))).
  { change (rows df)
      with (combine (index rnaseq)
              (rows_of
                 (eval (g_layers (vae_graph (shape_1 rnaseq) I L))
                    {| feed := feed_of (Placeholder 0) (VM (values rnaseq));
                       store := ts_store (hist l);
                       weights := ts_weights (hist l);
                       training := false;
                       normal := pn |}
                    (Apply 5
                       (Apply 4
                          (Apply 3
                             (Apply 2 (Apply 1 (Apply 0 (Placeholder 0)))))))%nat))).
    now rewrite predict_encoder. }
  assert (Hlen : length (index rnaseq) =
                 length (map (encode_row (ts_weights (hist l)) I L)
                           (values rnaseq))).
  { unfold index, values. now rewrite !length_map. }
  assert (Hvalues : values df =
                    map (encode_row (ts_weights (hist l)) I L) (values rnaseq)).
  { unfold values at 1. rewrite Hrows. now apply map_snd_combine. }
  split; [| split; [| split; [exact Hvalues |]]].
  - unfold index at 1. rewrite Hrows. now apply map_fst_combine.
  - rewrite Hrows, length_combine, <- Hlen. unfold index.
    rewrite length_map. apply Nat.min_id.
  - split; [reflexivity |]. split; [reflexivity |]. split.
    + intros i Hi Hv. simpl in Hi, Hv. lia.
    + split; [| split; [| reflexivity]].
      * rewrite Hvalues. apply Forall_forall. intros row Hrow.
        apply in_map_iff in Hrow as (x & <- & _). apply length_encode_row.
      * apply range_index_add_1.
Qed.

(** * The theorems at small instances *)


Lemma example_table_index :
  index example_table = map (fun i => Pos (Z.of_nat i)) (seq 0 10).
Proof. reflexivity. Qed.

Lemma example_table_NoDup : NoDup (index example_table).
Proof.
  rewrite example_table_index. simpl.
  repeat (constructor; [simpl; intuition discriminate |]). constructor.
Qed.

(** Ten samples: one goes to the test frame, nine to the train frame. *)
Lemma split_spec_witness :
  Permutation (reversed 123%Z 10) (seq 0 10) /\
  NoDup (index example_table) /\
  length
    (rows (rnaseq_test_df
             (body reversed example_weights idle_optimizer zeros3 zeros2
                (1 / 1000) 1 3 (1 / 2) 1 1 1 example_table))) = 1%nat /\
  length
    (rows (rnaseq_train_df
             (body reversed example_weights idle_optimizer zeros3 zeros2
                (1 / 1000) 1 3 (1 / 2) 1 1 1 example_table))) = 9%nat.
Proof.
  assert (Hperm : Permutation (reversed 123%Z 10) (seq 0 10)).
  { unfold reversed. apply Permutation_sym, Permutation_rev. }
  split; [exact Hperm |]. split; [exact example_table_NoDup |].
  destruct (split_spec reversed example_weights idle_optimizer zeros3 zeros2
              (1 / 1000) 1 3 (1 / 2) 1 1 1 example_table Hperm
              example_table_NoDup)
    as (_ & Htest & Htrain & _).
  split; [exact Htest | exact Htrain].
Defined.

(** A one-by-one batch: mean 1, log-variance 0, variate 1 and
    [epsilon_std = 2]. *)
Lemma sampling_spec_witness :
  let r := {| feed := fun p => if Nat.eqb p 0 then VM [[1]] else VM [[0]];
              store := initial_store;
              weights := example_weights;
              training := true;
              normal := fun _ _ => 1 |} in
  eval [] r (Placeholder 0) = VM (map (map fst) [[(1, 0)]]) /\
  eval [] r (Placeholder 1) = VM (map (map snd) [[(1, 0)]]) /\
  eval [] r (sampling 2 (Placeholder 0, Placeholder 1)) =
  VM [[1 + exp (0 / 2) * (0 + 2 * 1)]].
Proof.
  intros r.
  assert (Hm : eval [] r (Placeholder 0) = VM (map (map fst) [[(1, 0)]]))
    by reflexivity.
  assert (Hv : eval [] r (Placeholder 1) = VM (map (map snd) [[(1, 0)]]))
    by reflexivity.
  split; [exact Hm |]. split; [exact Hv |].
  destruct (sampling_spec [] r 2 (Placeholder 0) (Placeholder 1) [[(1, 0)]]
              Hm Hv) as (_ & _ & Hz & _).
  exact Hz.
Defined.

(** No file exists: the call raises and the files stay as they were. *)
Lemma read_failure_writes_nothing_witness :
  fs_read no_files (data_file "." "analysis") = None /\
  tybalt_2layer_model reversed example_weights idle_optimizer zeros3 zeros2
    no_files (1 / 1000) 1 3 (1 / 2) 1 1 1 "." "analysis" [] =
  (inl (ReadError (data_file "." "analysis")), []).
Proof.
  split; [reflexivity |].
  apply (read_failure_writes_nothing reversed example_weights idle_optimizer
           zeros3 zeros2 no_files (1 / 1000) 1 3 (1 / 2) 1 1 1 "." "analysis"
           []).
  reflexivity.
Defined.

(** Two calls on the example table that share no parameter. *)
Lemma split_ignores_parameters_witness :
  fs_read example_files (data_file "a" "x") = Some example_table /\
  fs_read example_files (data_file "b" "y") = Some example_table /\
  exists l l' : Locals,
    locals reversed example_weights idle_optimizer zeros3 zeros2 example_files
      (1 / 1000) 1 3 (1 / 2) 1 1 1 "a" "x" [] = (inr l, []) /\
    locals reversed (fun _ => example_params 0) idle_optimizer zeros3 zeros2
      example_files (1 / 10) 5 7 1 4 2 3 "b" "y" [] = (inr l', []) /\
    rnaseq_test_df l = sample reversed (1 # 10) 123%Z example_table /\
    rnaseq_train_df l = drop (index (rnaseq_test_df l)) example_table /\
    rnaseq_test_df l' = rnaseq_test_df l /\
    rnaseq_train_df l' = rnaseq_train_df l.
Proof.
  split; [reflexivity |]. split; [reflexivity |].
  apply (split_ignores_parameters reversed example_weights
           (fun _ => example_params 0) idle_optimizer idle_optimizer zeros3
           zeros3 zeros2 zeros2 example_files example_files (1 / 1000)
           (1 / 10) 1 5 3 7 (1 / 2) 1 1 4 1 2 1 3 "a" "b" "x" "y"
           example_table [] []); reflexivity.
Defined.

(** * Further properties of the function *)

(** ** Where the warm-up coefficient ends up *)


Lemma beta_after_never_stops (kappa : R) (n : nat) :
  kappa <= 0 -> beta_after kappa n = INR n * kappa.
Proof.
  intros Hk. induction n as [| n IH].
  - rewrite beta_after_0. simpl. lra.
  - rewrite beta_after_S, IH, S_INR.
    assert (0 <= INR n) by apply pos_INR.
    destruct (Rle_dec (INR n * kappa) 1); [lra | nra].
Qed.



(** For a step that is zero or negative the test [beta <= 1] never fails:
    the callback adds [kappa] at the end of every epoch, without end, and
    [beta] is [epochs * kappa], at most 0. *)
Theorem warmup_nonpositive_step (permutation : Z -> nat -> list nat)
  (w0 : Weights) (Adam : R -> nat -> Optimizer) (vn : nat -> nat -> nat -> R)
  (pn : nat -> nat -> R) (lr : R) (batch_size : nat) (kappa : R)
  (I L : nat) (eps : R) (rnaseq : DataFrame) (epochs : nat) :
  kappa <= 0 ->
  get_value
    (ts_store
       (hist (body permutation w0 Adam vn pn lr batch_size epochs kappa I L
                eps rnaseq)))
    beta =
  INR epochs * kappa.
Proof.
  intros Hk. rewrite body_beta. now apply beta_after_never_stops.
Qed.

Lemma warmup_nonpositive_step_witness :
  - (1) <= 0 /\
  get_value
    (ts_store
       (hist (body reversed example_weights idle_optimizer zeros3 zeros2
                (1 / 1000) 1 4 (- (1)) 1 1 1 example_table)))
    beta =
  INR 4 * - (1).
Proof.
  assert (H1 : - (1) <= 0) by lra.
  split; [exact H1 |].
  exact (warmup_nonpositive_step reversed example_weights idle_optimizer
           zeros3 zeros2 (1 / 1000) 1 (- (1)) 1 1 1 example_table 4 H1).
Defined.

(** ** The KL term and the sign of the loss *)

Lemma vae_loss_kl_loss (st : Store) (D : nat) (zm zlv x xd : Tensor) :
  CustomVariationalLayer.vae_loss st D zm zlv x xd =
  Mean (Add (Mul (Constant (INR D)) (metrics_binary_crossentropy x xd))
          (Mul (Constant (get_value st beta)) (kl_loss zm zlv))).
Proof. reflexivity. Qed.

Lemma kl_rows (P : list (list (R * R))) :
  map2 (map2 Rminus)
    (map2 (map2 Rminus) (map (map (Rplus 1)) (map (map snd) P))
       (map (map Rsqr) (map (map fst) P)))
    (map (map exp) (map (map snd) P)) =
  map (map (fun p => 1 + snd p - Rsqr (fst p) - exp (snd p))) P.
Proof.
  induction P as [| row P IH]; simpl; [reflexivity |].
  now rewrite IH, kl_row.
Qed.

Lemma rsum_nonpos (l : list R) : Forall (fun x => x <= 0) l -> rsum l <= 0.
Proof.
  induction 1 as [| x l Hx _ IH]; simpl; lra.
Qed.

Lemma rsum_nonneg (l : list R) : Forall (fun x => 0 <= x) l -> 0 <= rsum l.
Proof.
  induction 1 as [| x l Hx _ IH]; simpl; lra.
Qed.

Lemma rsum_zero (l : list R) : Forall (fun x => x = 0) l -> rsum l = 0.
Proof.
  induction 1 as [| x l Hx _ IH]; simpl; lra.
Qed.

Lemma rmean_nonneg (l : list R) : Forall (fun x => 0 <= x) l -> 0 <= rmean l.
Proof.
  intros Hl. unfold rmean, Rdiv. destruct l as [| x l].
  - simpl. lra.
  - apply Rmult_le_pos; [now apply rsum_nonneg |].
    left. apply Rinv_0_lt_compat. apply lt_0_INR. simpl. lia.
Qed.

Lemma kl_entry_nonpos (m v : R) : 1 + v - Rsqr m - exp v <= 0.
Proof.
  pose proof (exp_ineq1_le v). pose proof (Rle_0_sqr m). lra.
Qed.

(** The KL term of a sample is never negative, and it is 0 when every
    latent mean and log-variance of the sample is 0: in a run in which
    [z_mean] and [z_log_var] have the entries [P], [kl_loss] is a vector with
    one such number per sample. *)
Theorem kl_loss_nonneg (layers : list LayerKind) (r : Run)
  (z_mean z_log_var : Tensor) (P : list (list (R * R))) :
  eval layers r z_mean = VM (map (map fst) P) ->
  eval layers r z_log_var = VM (map (map snd) P) ->
  exists kl : list R,
    eval layers r (kl_loss z_mean z_log_var) = VV kl /\
    length kl = length P /\
    Forall (fun x => 0 <= x) kl /\
    (Forall (Forall (fun p => p = (0, 0))) P -> Forall (fun x => x = 0) kl).
Proof.
  intros Hm Hv.
  exists (map (fun row =>
                 - (1 / 2) *
                 rsum (map (fun p => 1 + snd p - Rsqr (fst p) - exp (snd p))
                         row)) P).
  split; [| split; [| split]].
  - simpl. rewrite Hm, Hv. simpl. rewrite kl_rows. now rewrite !map_map.
  - apply length_map.
  - apply Forall_forall. intros x Hx. apply in_map_iff in Hx as (row & <- & _).
    assert (rsum (map (fun p => 1 + snd p - Rsqr (fst p) - exp (snd p)) row)
            <= 0) as Hs; [| lra].
    apply rsum_nonpos, Forall_forall. intros y Hy.
    apply in_map_iff in Hy as (p & <- & _). apply kl_entry_nonpos.
  - intros Hz. apply Forall_forall. intros x Hx.
    apply in_map_iff in Hx as (row & <- & Hrow).
    rewrite Forall_forall in Hz. specialize (Hz row Hrow).
    rewrite rsum_zero; [lra |].
    apply Forall_forall. intros y Hy. apply in_map_iff in Hy as (p & <- & Hp).
    rewrite Forall_forall in Hz. rewrite (Hz p Hp). simpl.
    rewrite exp_0. unfold Rsqr. lra.
Qed.

(** One sample at the prior (mean 0, log-variance 0): the KL term is 0. *)
Lemma kl_loss_nonneg_witness :
  let r := {| feed := fun _ => VM [[0]]; store := initial_store;
              weights := example_weights; training := false;
              normal := zeros2 |} in
  eval [] r (Placeholder 0) = VM (map (map fst) [[(0, 0)]]) /\
  eval [] r (Placeholder 1) = VM (map (map snd) [[(0, 0)]]) /\
  exists kl : list R,
    eval [] r (kl_loss (Placeholder 0) (Placeholder 1)) = VV kl /\
    length kl = 1%nat /\
    Forall (fun x => 0 <= x) kl /\
    (Forall (Forall (fun p => p = (0, 0))) [[(0, 0)]] ->
     Forall (fun x => x = 0) kl).
Proof.
  intros r.
  assert (Hm : eval [] r (Placeholder 0) = VM (map (map fst) [[(0, 0)]]))
    by reflexivity.
  assert (Hv : eval [] r (Placeholder 1) = VM (map (map snd) [[(0, 0)]]))
    by reflexivity.
  split; [exact Hm |]. split; [exact Hv |].
  exact (kl_loss_nonneg [] r (Placeholder 0) (Placeholder 1) [[(0, 0)]] Hm Hv).
Defined.

Lemma clip_bounds (x : R) :
  K_epsilon <= clip x K_epsilon (1 - K_epsilon) <= 1 - K_epsilon.
Proof.
  unfold clip, K_epsilon. split.
  - apply Rmax_l.
  - apply Rmax_lub; [lra | apply Rmin_r].
Qed.

Lemma ln_nonpos (x : R) : 0 < x -> x <= 1 -> ln x <= 0.
Proof.
  intros H0 H1. rewrite <- ln_1. destruct H1 as [Hlt | ->].
  - left. now apply ln_increasing.
  - lra.
Qed.

Lemma K_binary_crossentropy_nonneg (target output : R) :
  0 <= target <= 1 -> 0 <= K_binary_crossentropy target output.
Proof.
  intros Ht. unfold K_binary_crossentropy.
  pose proof (clip_bounds output) as Hp.
  set (p := clip output K_epsilon (1 - K_epsilon)) in *.
  unfold K_epsilon in Hp.
  assert (ln p <= 0) by (apply ln_nonpos; lra).
  assert (ln (1 - p) <= 0) by (apply ln_nonpos; lra).
  nra.
Qed.

Lemma reconstruction_term_nonneg (D : nat) (s : Sample) :
  Forall (fun p => 0 <= fst p <= 1) (genes s) ->
  0 <= reconstruction_term D s.
Proof.
  intros Hs. unfold reconstruction_term.
  apply Rmult_le_pos; [apply pos_INR |].
  apply rmean_nonneg, Forall_forall. intros x Hx.
  apply in_map_iff in Hx as (p & <- & Hp).
  apply K_binary_crossentropy_nonneg.
  rewrite Forall_forall in Hs. now apply Hs.
Qed.

Lemma batch_loss_0 (D : nat) (batch : list Sample) :
  batch_loss D 0 batch = rmean (map (reconstruction_term D) batch).
Proof.
  unfold batch_loss. f_equal. apply map_ext. intros s. lra.
Qed.

(** The loss the function's model minimizes is, in every run, the mean over
    the samples of the reconstruction term alone (the KL term is multiplied
    by the constant 0); so it is never negative when the inputs are in
    [[0, 1]]. *)
Theorem loss_is_reconstruction_alone (permutation : Z -> nat -> list nat)
  (w0 : Weights) (Adam : R -> nat -> Optimizer) (vn : nat -> nat -> nat -> R)
  (pn : nat -> nat -> R) (lr : R) (batch_size epochs : nat) (kappa : R)
  (I L : nat) (eps : R) (rnaseq : DataFrame) (r : Run)
  (batch : list Sample) :
  let l := body permutation w0 Adam vn pn lr batch_size epochs kappa I L eps
             rnaseq in
  let run := eval (g_layers (graph l)) r in
  run (rnaseq_input (net l)) = VM (input_of batch) ->
  run (rnaseq_reconstruct (net l)) = VM (reconstruction_of batch) ->
  run (z_mean_encoded (net l)) = VM (z_mean_of batch) ->
  run (z_log_var_encoded (net l)) = VM (z_log_var_of batch) ->
  item (run (total_loss (vae_losses (net l)))) =
  rmean (map (reconstruction_term (original_dim l)) batch) /\
  (Forall (fun s => Forall (fun p => 0 <= fst p <= 1) (genes s)) batch ->
   0 <= item (run (total_loss (vae_losses (net l))))).
Proof.
  intros l run Hx Hxd Hzm Hzlv.
  assert (Hloss : item (run (total_loss (vae_losses (net l)))) =
                  rmean (map (reconstruction_term (original_dim l)) batch)).
  { change (total_loss (vae_losses (net l)))
      with (Add (Constant 0)
              (CustomVariationalLayer.vae_loss initial_store (original_dim l)
                 (z_mean_encoded (net l)) (z_log_var_encoded (net l))
                 (rnaseq_input (net l)) (rnaseq_reconstruct (net l)))).
    unfold run in *. cbn [eval].
    rewrite (eval_vae_loss _ _ _ _ _ _ _ _ batch Hx Hxd Hzm Hzlv).
    cbn [broadcast item]. change (get_value initial_store beta) with 0.
    rewrite batch_loss_0. lra. }
  split; [exact Hloss |].
  intros Hrange. rewrite Hloss. apply rmean_nonneg, Forall_forall.
  intros x Hx'. apply in_map_iff in Hx' as (s & <- & Hs).
  apply reconstruction_term_nonneg.
  rewrite Forall_forall in Hrange. now apply Hrange.
Qed.

Lemma example_run_z_mean (st : Store) :
  eval (g_layers (vae_graph 1 1 1)) (example_run st)
    (Apply 5 (Apply 4 (Apply 3 (Apply 2 (Apply 1 (Apply 0 (Placeholder 0)))))))%nat =
  VM [[1]].
Proof. cbn. now rewrite rmax_l_0. Qed.

Lemma example_run_z_log_var (st : Store) :
  eval (g_layers (vae_graph 1 1 1)) (example_run st)
    (Apply 8 (Apply 7 (Apply 6 (Placeholder 0))))%nat =
  VM [[0]].
Proof. cbn. now rewrite rmax_r_0. Qed.

Lemma example_run_reconstruct (st : Store) (eps : R) :
  eval (g_layers (vae_graph 1 1 1)) (example_run st)
    (Apply 10
       (Apply 9
          (sampling eps
             (Apply 5 (Apply 4 (Apply 3 (Apply 2 (Apply 1 (Apply 0 (Placeholder 0)))))),
              Apply 8 (Apply 7 (Apply 6 (Placeholder 0)))))))%nat =
  VM [[1 / 2]].
Proof.
  cbn. rewrite !Rmult_0_r, !Rplus_0_l, Ropp_0, exp_0.
  replace (1 / (1 + 1)) with (1 / 2) by lra. reflexivity.
Qed.

(** The example run after one epoch: the loss is the reconstruction term
    of the one sample. *)
Lemma loss_is_reconstruction_alone_witness :
  let l := body reversed example_weights idle_optimizer zeros3 zeros2
             (1 / 1000) 1 1 1 1 1 1 example_table in
  let run := eval (g_layers (graph l)) (example_run (ts_store (hist l))) in
  run (rnaseq_input (net l)) = VM (input_of example_batch) /\
  run (rnaseq_reconstruct (net l)) = VM (reconstruction_of example_batch) /\
  run (z_mean_encoded (net l)) = VM (z_mean_of example_batch) /\
  run (z_log_var_encoded (net l)) = VM (z_log_var_of example_batch) /\
  Forall (fun s => Forall (fun p => 0 <= fst p <= 1) (genes s)) example_batch /\
  item (run (total_loss (vae_losses (net l)))) =
  rmean (map (reconstruction_term (original_dim l)) example_batch) /\
  0 <= item (run (total_loss (vae_losses (net l)))).
Proof.
  intros l run.
  assert (Hx : run (rnaseq_input (net l)) = VM (input_of example_batch))
    by reflexivity.
  assert (Hxd : run (rnaseq_reconstruct (net l)) =
                VM (reconstruction_of example_batch))
    by exact (example_run_reconstruct (ts_store (hist l)) 1).
  assert (Hzm : run (z_mean_encoded (net l)) = VM (z_mean_of example_batch))
    by exact (example_run_z_mean (ts_store (hist l))).
  assert (Hzlv : run (z_log_var_encoded (net l)) =
                 VM (z_log_var_of example_batch))
    by exact (example_run_z_log_var (ts_store (hist l))).
  assert (Hrange : Forall (fun s => Forall (fun p => 0 <= fst p <= 1) (genes s))
                     example_batch).
  { repeat constructor; simpl; lra. }
  destruct (loss_is_reconstruction_alone reversed example_weights
              idle_optimizer zeros3 zeros2 (1 / 1000) 1 1 1 1 1 1
              example_table (example_run (ts_store (hist l))) example_batch
              Hx Hxd Hzm Hzlv) as [Hloss Hpos].
  refine (conj Hx (conj Hxd (conj Hzm (conj Hzlv (conj Hrange
            (conj Hloss (Hpos Hrange))))))).
Defined.

(** ** The step of the warm-up and the result of the training *)

Lemma objective_ignores_store (g : Graph) (m : Model) (loss : Tensor)
  (st st' : Store) (phase : bool) :
  variables_of loss = [] ->
  objective g m loss st phase = objective g m loss st' phase.
Proof.
  intros Hvars. unfold objective.
  apply functional_extensionality. intros w.
  apply functional_extensionality. intros batch.
  apply functional_extensionality. intros nrm.
  apply f_equal. apply eval_ext; try reflexivity.
  intros v Hv. simpl in Hv. rewrite Hvars in Hv. contradiction.
Qed.

Lemma fit_ignores_callbacks (g : Graph) (m : Model) (loss : Tensor)
  (opt : Optimizer) (vn : nat -> nat -> nat -> R) (x v : list (list R))
  (cbs cbs' : list WarmUpCallback.t) (init init' : TrainState) (n : nat) :
  variables_of loss = [] ->
  ts_weights init = ts_weights init' ->
  ts_history init = ts_history init' ->
  ts_weights (fit g m loss opt vn x v cbs init n) =
  ts_weights (fit g m loss opt vn x v cbs' init' n) /\
  ts_history (fit g m loss opt vn x v cbs init n) =
  ts_history (fit g m loss opt vn x v cbs' init' n).
Proof.
  intros Hvars Hw Hh. induction n as [| n [IHw IHh]]; [now split |].
  simpl.
  rewrite (objective_ignores_store g m loss
             (ts_store (fit g m loss opt vn x v cbs init n))
             (ts_store (fit g m loss opt vn x v cbs' init' n)) true Hvars).
  rewrite (objective_ignores_store g m loss
             (ts_store (fit g m loss opt vn x v cbs init n))
             (ts_store (fit g m loss opt vn x v cbs' init' n)) false Hvars).
  rewrite IHw, IHh.
  destruct (opt n _ x _) as [w epoch_loss]. simpl. now split.
Qed.

Lemma encoded_rows (permutation : Z -> nat -> list nat)
  (w0 : Weights) (Adam : R -> nat -> Optimizer) (vn : nat -> nat -> nat -> R)
  (pn : nat -> nat -> R) (lr : R) (batch_size epochs : nat) (kappa : R)
  (I L : nat) (eps : R) (rnaseq : DataFrame) :
  let l := body permutation w0 Adam vn pn lr batch_size epochs kappa I L eps
             rnaseq in
  rows (encoded_rnaseq_df l) =
  combine (index rnaseq)
    (map (encode_row (ts_weights (hist l)) I L) (values rnaseq)).
Proof.
  intros l.
  change (rows (encoded_rnaseq_df l))
    with (combine (index rnaseq)
            (rows_of
               (eval (g_layers (vae_graph (shape_1 rnaseq) I L))
                  {| feed := feed_of (Placeholder 0) (VM (values rnaseq));
                     store := ts_store (hist l);
                     weights := ts_weights (hist l);
                     training := false;
                     normal := pn |}
                  (Apply 5
                     (Apply 4
                        (Apply 3
                           (Apply 2 (Apply 1 (Apply 0 (Placeholder 0)))))))%nat))).
  now rewrite predict_encoder.
Qed.

(** The step [kappa] of the warm-up changes nothing in what the training
    yields: for any two values of [kappa], everything else equal, the
    trained parameters, the history of losses and the encoded table are the
    same.  (Only the [kappa] column of the statistics table differs.) *)
Theorem kappa_has_no_effect (permutation : Z -> nat -> list nat)
  (w0 : Weights) (Adam : R -> nat -> Optimizer) (vn : nat -> nat -> nat -> R)
  (pn : nat -> nat -> R) (lr : R) (batch_size epochs : nat)
  (kappa kappa' : R) (I L : nat) (eps : R) (rnaseq : DataFrame) :
  let l := body permutation w0 Adam vn pn lr batch_size epochs kappa I L eps
             rnaseq in
  let l' := body permutation w0 Adam vn pn lr batch_size epochs kappa' I L eps
              rnaseq in
  ts_weights (hist l) = ts_weights (hist l') /\
  ts_history (hist l) = ts_history (hist l') /\
  encoded_rnaseq_df l = encoded_rnaseq_df l'.
Proof.
  intros l l'.
  assert (Hfit : ts_weights (hist l) = ts_weights (hist l') /\
                 ts_history (hist l) = ts_history (hist l')).
  { unfold l, l', body. cbn [hist]. apply fit_ignores_callbacks; reflexivity. }
  destruct Hfit as [Hw Hh]. split; [exact Hw |]. split; [exact Hh |].
  transitivity
    {| index_name := index_name rnaseq;
       columns := columns (encoded_rnaseq_df l);
       rows := rows (encoded_rnaseq_df l) |}; [reflexivity |].
  transitivity
    {| index_name := index_name rnaseq;
       columns := columns (encoded_rnaseq_df l');
       rows := rows (encoded_rnaseq_df l') |}; [| reflexivity].
  unfold l, l'. rewrite !encoded_rows. fold l l'. rewrite Hw. reflexivity.
Qed.

(** ** The writes *)





(** ** The statistics table *)




(** ** The split on small tables and on tables with repeated labels *)

Lemma test_size_small (N : nat) :
  (N <= 5)%nat ->
  Z.to_nat (py_round (test_set_percent * inject_Z (Z.of_nat N))) = 0%nat.
Proof.
  intros HN.
  destruct N as [| [| [| [| [| [| N]]]]]]; try reflexivity. lia.
Qed.

Lemma drop_nothing (df : DataFrame) : drop [] df = df.
Proof.
  destruct df as [nm cols rws]. unfold drop. simpl. f_equal.
  induction rws as [| row rws IH]; simpl; [reflexivity | now rewrite IH].
Qed.

(** A table of at most five rows gives no test row at all ([round] of at
    most 0.5 is 0): the test frame is empty and the train frame is the whole
    table, so the validation passes of the training run on no row. *)
Theorem split_small_table (permutation : Z -> nat -> list nat) (w0 : Weights)
  (Adam : R -> nat -> Optimizer) (vn : nat -> nat -> nat -> R)
  (pn : nat -> nat -> R) (lr : R) (batch_size epochs : nat) (kappa : R)
  (I L : nat) (eps : R) (rnaseq : DataFrame) :
  (length (rows rnaseq) <= 5)%nat ->
  let l := body permutation w0 Adam vn pn lr batch_size epochs kappa I L eps
             rnaseq in
  rows (rnaseq_test_df l) = [] /\ rnaseq_train_df l = rnaseq.
Proof.
  intros HN l.
  assert (Htest : rows (rnaseq_test_df l) = []).
  { change (rows (rnaseq_test_df l))
      with (rows (sample permutation test_set_percent randomState rnaseq)).
    rewrite sample_rows, test_size_small by exact HN. reflexivity. }
  split; [exact Htest |].
  change (rnaseq_train_df l) with (drop (map fst (rows (rnaseq_test_df l))) rnaseq).
  rewrite Htest. apply drop_nothing.
Qed.

Lemma split_small_table_witness :
  let t := {| index_name := None;
              columns := {| name := None; labels := [Name "gene"] |};
              rows := [(Name "a", [1]); (Name "b", [0]); (Name "c", [1])] |} in
  let l := body reversed example_weights idle_optimizer zeros3 zeros2
             (1 / 1000) 1 3 (1 / 2) 1 1 1 t in
  (length (rows t) <= 5)%nat /\
  rows (rnaseq_test_df l) = [] /\ rnaseq_train_df l = t.
Proof.
  intros t l.
  assert (HN : (length (rows t) <= 5)%nat) by (simpl; lia).
  split; [exact HN |].
  exact (split_small_table reversed example_weights idle_optimizer zeros3
           zeros2 (1 / 1000) 1 3 (1 / 2) 1 1 1 t HN).
Defined.

Lemma pick_app {A : Type} (a b : list nat) (l : list A) :
  pick (a ++ b) l = pick a l ++ pick b l.
Proof. unfold pick. apply flat_map_app. Qed.

Lemma pick_seq_from {A : Type} (pre l : list A) :
  pick (seq (length pre) (length l)) (pre ++ l) = l.
Proof.
  revert pre. induction l as [| x l IH]; intros pre; [reflexivity |].
  cbn [length seq]. unfold pick in *. cbn [flat_map].
  rewrite nth_error_app2, Nat.sub_diag by lia. cbn [nth_error app].
  f_equal.
  specialize (IH (pre ++ [x])).
  rewrite length_app, Nat.add_1_r, <- app_assoc in IH. exact IH.
Qed.

Lemma pick_seq {A : Type} (l : list A) : pick (seq 0 (length l)) l = l.
Proof. exact (pick_seq_from [] l). Qed.

Lemma pick_length_le {A : Type} (locs : list nat) (l : list A) :
  (length (pick locs l) <= length locs)%nat.
Proof.
  induction locs as [| i locs IH]; [simpl; lia |].
  unfold pick in *. cbn [flat_map]. rewrite length_app. cbn [length].
  destruct (nth_error l i); simpl; lia.
Qed.

Lemma filter_length_Permutation {A : Type} (f : A -> bool) (a b : list A) :
  Permutation a b -> length (filter f a) = length (filter f b).
Proof.
  induction 1 as [| x a b _ IH | x y a | a b c _ IH1 _ IH2]; simpl.
  - reflexivity.
  - destruct (f x); simpl; now rewrite IH.
  - destruct (f x), (f y); reflexivity.
  - now rewrite IH1.
Qed.

Lemma filter_none {A : Type} (f : A -> bool) (l : list A) :
  (forall x, In x l -> f x = false) -> filter f l = [].
Proof.
  induction l as [| x l IH]; intros Hf; [reflexivity |].
  simpl. rewrite (Hf x) by now left. apply IH. intros y Hy. apply Hf. now right.
Qed.

(** When row labels repeat, the split still takes [n = round(0.1 * N)] rows
    for the test frame, but dropping works by label: every row that carries
    the label of a sampled row leaves the train frame, sampled or not.  So no
    label is in both frames and the train frame has at most [N - n] rows;
    rows that share a label with a sampled row and were not sampled are in
    neither frame. *)
Theorem split_repeated_labels (permutation : Z -> nat -> list nat)
  (w0 : Weights) (Adam : R -> nat -> Optimizer) (vn : nat -> nat -> nat -> R)
  (pn : nat -> nat -> R) (lr : R) (batch_size epochs : nat) (kappa : R)
  (I L : nat) (eps : R) (rnaseq : DataFrame) :
  let N := length (rows rnaseq) in
  let n := Z.to_nat (py_round ((1 # 10) * inject_Z (Z.of_nat N))) in
  let l := body permutation w0 Adam vn pn lr batch_size epochs kappa I L eps
             rnaseq in
  Permutation (permutation 123%Z N) (seq 0 N) ->
  length (rows (rnaseq_test_df l)) = n /\
  (forall x, In x (rows rnaseq) ->
     (In x (rows (rnaseq_train_df l)) <->
      ~ In (fst x) (index (rnaseq_test_df l)))) /\
  (length (rows (rnaseq_train_df l)) + n <= N)%nat.
Proof.
  intros N n l Hperm.
  set (p := permutation 123%Z N) in *.
  set (test := rnaseq_test_df l).
  assert (Htest : rows test = pick (firstn n p) (rows rnaseq)) by reflexivity.
  assert (Htrain : rows (rnaseq_train_df l) =
                   filter (fun row => negb (mem_label (fst row) (index test)))
                     (rows rnaseq)) by reflexivity.
  assert (Hlen : length p = N).
  { rewrite (Permutation_length Hperm). apply length_seq. }
  assert (Hn : (n <= N)%nat) by apply test_size_le.
  assert (Hlt : Forall (fun i => (i < length (rows rnaseq))%nat) (firstn n p)).
  { apply Forall_forall. intros i Hi.
    assert (In i p) as Hin.
    { rewrite <- (firstn_skipn n). apply in_or_app. now left. }
    apply (Permutation_in _ Hperm) in Hin. apply in_seq in Hin. fold N. lia. }
  split; [| split].
  - rewrite Htest, pick_length by exact Hlt. rewrite length_firstn, Hlen. lia.
  - intros x Hx. rewrite Htrain, filter_In, negb_true_iff. split.
    + intros [_ Hm] Hin. apply mem_label_In in Hin. congruence.
    + intros Hnot. split; [exact Hx |].
      destruct (mem_label (fst x) (index test)) eqn:Hm; [| reflexivity].
      apply mem_label_In in Hm. contradiction.
  - set (f := fun row : Label * list R =>
                negb (mem_label (fst row) (index test))) in *.
    assert (Hall : Permutation (rows rnaseq)
                     (rows test ++ pick (skipn n p) (rows rnaseq))).
    { rewrite Htest, <- pick_app, firstn_skipn.
      rewrite <- (pick_seq (rows rnaseq)) at 1. fold N.
      unfold pick. apply Permutation_flat_map. now apply Permutation_sym. }
    rewrite Htrain, (filter_length_Permutation f _ _ Hall), filter_app,
      length_app.
    rewrite (filter_none f (rows test)).
    + pose proof (filter_length_le f (pick (skipn n p) (rows rnaseq))) as H1.
      pose proof (pick_length_le (skipn n p) (rows rnaseq)) as H2.
      rewrite length_skipn, Hlen in H2. simpl. lia.
    + intros x Hx. unfold f. apply negb_false_iff, mem_label_In.
      unfold index. now apply in_map.
Qed.

(** Ten rows that all carry the label [s]: one row is sampled and the train
    frame loses all ten. *)
Lemma split_repeated_labels_witness :
  let t := {| index_name := None;
              columns := {| name := None; labels := [Name "gene"] |};
              rows := map (fun _ => (Name "s", [1])) (seq 0 10) |} in
  let l := body reversed example_weights idle_optimizer zeros3 zeros2
             (1 / 1000) 1 3 (1 / 2) 1 1 1 t in
  Permutation (reversed 123%Z 10) (seq 0 10) /\
  length (rows (rnaseq_test_df l)) = 1%nat /\
  (length (rows (rnaseq_train_df l)) + 1 <= 10)%nat /\
  rows (rnaseq_train_df l) = [].
Proof.
  intros t l.
  assert (Hperm : Permutation (reversed 123%Z 10) (seq 0 10)).
  { unfold reversed. apply Permutation_sym, Permutation_rev. }
  destruct (split_repeated_labels reversed example_weights idle_optimizer
              zeros3 zeros2 (1 / 1000) 1 3 (1 / 2) 1 1 1 t Hperm)
    as (Htest & _ & Htrain).
  refine (conj Hperm (conj Htest (conj Htrain _))). reflexivity.
Defined.

(** ** Ranges and shapes of the encoder and the decoder *)

Lemma relu_nonneg (x : R) : 0 <= activate relu x.
Proof. simpl. apply Rmax_r. Qed.


Lemma length_dense_row (p : Params) (units : nat) (act : ActivationFn)
  (row : list R) :
  length (dense_row p units act row) = units.
Proof. unfold dense_row. now rewrite length_map, length_seq. Qed.

Lemma batch_normalization_shape (p : Params) (phase : bool)
  (m : list (list R)) :
  map (@length R) (batch_normalization p phase m) = map (@length R) m.
Proof.
  unfold batch_normalization, mapi. rewrite map_map. apply map_ext.
  intros row. apply length_mapi_from.
Qed.

Lemma dense_bn_relu_shape (pd pb : Params) (phase : bool) (units : nat)
  (m : list (list R)) :
  let out :=
    map (map (activate relu))
      (batch_normalization pb phase (map (dense_row pd units linear) m)) in
  length out = length m /\
  Forall (fun row => length row = units) out /\
  Forall (Forall (fun x => 0 <= x)) out.
Proof.
  intros out. split; [| split].
  - unfold out, batch_normalization. now rewrite !length_map.
  - apply Forall_forall. intros row Hrow.
    assert (In (length row) (map (@length R) out)) as Hin by now apply in_map.
    unfold out in Hin. rewrite map_map in Hin.
    rewrite (map_ext _ (@length R)) in Hin
      by (intros; apply length_map).
    rewrite batch_normalization_shape, map_map in Hin.
    apply in_map_iff in Hin as (x & Hx & _).
    now rewrite length_dense_row in Hx.
  - apply Forall_forall. intros row Hrow. unfold out in Hrow.
    apply in_map_iff in Hrow as (row' & <- & _).
    apply Forall_forall. intros x Hx.
    apply in_map_iff in Hx as (y & <- & _). apply relu_nonneg.
Qed.

(** In every run of the function's graph, in or outside training, [z_mean]
    and [z_log_var] have one row per row fed to the input, each row has
    [latent_dim] entries, and no entry is negative (both branches end in a
    relu): the encoder never gives a negative mean or a log-variance below 0,
    that is a variance below 1. *)
Theorem encoder_outputs_nonneg (permutation : Z -> nat -> list nat)
  (w0 : Weights) (Adam : R -> nat -> Optimizer) (vn : nat -> nat -> nat -> R)
  (pn : nat -> nat -> R) (lr : R) (batch_size epochs : nat) (kappa : R)
  (I L : nat) (eps : R) (rnaseq : DataFrame) (r : Run) :
  let l := body permutation w0 Adam vn pn lr batch_size epochs kappa I L eps
             rnaseq in
  let run := fun t => rows_of (eval (g_layers (graph l)) r t) in
  let good := fun m : list (list R) =>
    length m = length (run (rnaseq_input (net l))) /\
    Forall (fun row => length row = L) m /\
    Forall (Forall (fun x => 0 <= x)) m in
  good (run (z_mean_encoded (net l))) /\
  good (run (z_log_var_encoded (net l))).
Proof.
  intros l run good. split.
  - destruct (dense_bn_relu_shape (weights r 3%nat) (weights r 4%nat)
                (training r) L (run (hidden_encoded (net l))))
      as (Hlen & Hwidth & Hpos).
    destruct (dense_bn_relu_shape (weights r 0%nat) (weights r 1%nat)
                (training r) I (run (rnaseq_input (net l))))
      as (Hlen' & _ & _).
    split; [| split].
    + etransitivity; [exact Hlen | exact Hlen'].
    + exact Hwidth.
    + exact Hpos.
  - exact (dense_bn_relu_shape (weights r 6%nat) (weights r 7%nat)
             (training r) L (run (rnaseq_input (net l)))).
Qed.



(** ** The sampler without noise *)

Lemma mapi_from_map_eq {A B : Type} (f : nat -> A -> B) (g : A -> B)
  (l : list A) (i : nat) :
  (forall j x, f j x = g x) -> mapi_from i f l = map g l.
Proof.
  intros Hfg. revert i. induction l as [| x l IH]; intros i; simpl;
    [reflexivity | now rewrite Hfg, IH].
Qed.

(** With [epsilon_std = 0] the sampler returns [z_mean] itself, whatever the
    generator yields and whatever [z_log_var] is: the model is then a
    deterministic autoencoder. *)
Theorem sampling_without_noise (layers : list LayerKind) (r : Run)
  (z_mean z_log_var : Tensor) (P : list (list (R * R))) :
  eval layers r z_mean = VM (map (map fst) P) ->
  eval layers r z_log_var = VM (map (map snd) P) ->
  eval layers r (sampling 0 (z_mean, z_log_var)) = eval layers r z_mean.
Proof.
  intros Hm Hv. simpl. rewrite Hm, Hv. simpl. unfold mapi. f_equal.
  rewrite (sampling_rows (fun i j => 0 + 0 * normal r i j)).
  apply mapi_from_map_eq. intros i row.
  apply mapi_from_map_eq. intros j p. ring.
Qed.

Lemma sampling_without_noise_witness :
  let r := {| feed := fun p => if Nat.eqb p 0 then VM [[1]] else VM [[3]];
              store := initial_store;
              weights := example_weights;
              training := true;
              normal := fun _ _ => 7 |} in
  eval [] r (Placeholder 0) = VM (map (map fst) [[(1, 3)]]) /\
  eval [] r (Placeholder 1) = VM (map (map snd) [[(1, 3)]]) /\
  eval [] r (sampling 0 (Placeholder 0, Placeholder 1)) = VM [[1]].
Proof.
  intros r.
  assert (Hm : eval [] r (Placeholder 0) = VM (map (map fst) [[(1, 3)]]))
    by reflexivity.
  assert (Hv : eval [] r (Placeholder 1) = VM (map (map snd) [[(1, 3)]]))
    by reflexivity.
  split; [exact Hm |]. split; [exact Hv |].
  exact (sampling_without_noise [] r (Placeholder 0) (Placeholder 1)
           [[(1, 3)]] Hm Hv).
Defined.

(** ** The paths of the files *)

Lemma contains_sep_append (a b : string) :
  contains_sep (String.append a b) = (contains_sep a || contains_sep b)%bool.
Proof.
  induction a as [| c a IH]; simpl; [reflexivity |].
  now rewrite IH, orb_assoc.
Qed.

Lemma basename_no_sep (s : string) : contains_sep s = false -> basename s = s.
Proof.
  destruct s as [| c t]; simpl; [reflexivity |].
  intros H. apply orb_false_iff in H as [Hc Ht]. now rewrite Ht, Hc.
Qed.

Lemma endswith_contains_sep (p : string) :
  endswith_sep p = true -> contains_sep p = true.
Proof.
  induction p as [| c p IH]; simpl; [discriminate |].
  destruct p as [| d p].
  - intros ->. reflexivity.
  - intros H. rewrite (IH H). apply orb_true_r.
Qed.

Lemma basename_append_dir (p b : string) :
  contains_sep b = false -> endswith_sep p = true ->
  basename (String.append p b) = b.
Proof.
  intros Hb. induction p as [| c p IH]; [discriminate |].
  destruct p as [| d p].
  - simpl. intros ->. now rewrite Hb.
  - intros H. change (endswith_sep (String c (String d p)))
      with (endswith_sep (String d p)) in H.
    change (String.append (String c (String d p)) b)
      with (String c (String.append (String d p) b)).
    cbn [basename].
    rewrite contains_sep_append, (endswith_contains_sep _ H). simpl orb.
    cbv iota. now apply IH.
Qed.

Lemma basename_append_sep (p b : string) :
  contains_sep b = false -> basename (String.append p (String sep b)) = b.
Proof.
  intros Hb. induction p as [| c p IH]; simpl.
  - now rewrite Hb.
  - rewrite contains_sep_append. simpl. rewrite orb_true_r. exact IH.
Qed.

Lemma basename_join2 (p b : string) :
  contains_sep b = false -> basename (join2 p b) = b.
Proof.
  intros Hb. unfold join2.
  assert (Hs : startswith_sep b = false).
  { destruct b as [| c t]; [reflexivity |]. simpl in *.
    now apply orb_false_iff in Hb as [Hc _]. }
  rewrite Hs.
  destruct (String.eqb p EmptyString) eqn:Hp.
  - apply String.eqb_eq in Hp. subst p. simpl. now apply basename_no_sep.
  - simpl. destruct (endswith_sep p) eqn:He.
    + now apply basename_append_dir.
    + now apply basename_append_sep.
Qed.

Lemma basename_os_path_join (a x y file : string) :
  contains_sep file = false -> basename (os_path_join a [x; y; file]) = file.
Proof. intros Hf. simpl. now apply basename_join2. Qed.

Lemma digits_no_sep (u : Decimal.uint) :
  contains_sep (NilEmpty.string_of_uint u) = false.
Proof. induction u; simpl; auto. Qed.

Lemma format_no_sep (before after : string) (n : nat) :
  contains_sep before = false -> contains_sep after = false ->
  contains_sep (format before after n) = false.
Proof.
  intros Ha Hb. unfold format.
  now rewrite !contains_sep_append, Ha, Hb, digits_no_sep.
Qed.

Lemma append_inv_head (a b c : string) :
  String.append a b = String.append a c -> b = c.
Proof.
  induction a as [| x a IH]; simpl; [auto |].
  intros H. injection H as H. now apply IH.
Qed.

(** Whatever the base directory, the analysis name and the latent dimension
    are, the input file and the seven output files are eight different
    paths: the function never writes over its input and no output replaces
    another. *)
Theorem paths_distinct (base_dir analysis_name : string) (latent_dim : nat) :
  NoDup
    [data_file base_dir analysis_name;
     hist_plot_file latent_dim base_dir analysis_name;
     stat_file latent_dim base_dir analysis_name;
     encoded_file latent_dim base_dir analysis_name;
     model_encoder_file latent_dim base_dir analysis_name;
     weights_encoder_file latent_dim base_dir analysis_name;
     model_decoder_file latent_dim base_dir analysis_name;
     weights_decoder_file latent_dim base_dir analysis_name].
Proof.
  apply (NoDup_map_inv basename).
  unfold data_file, hist_plot_file, stat_file, encoded_file,
    model_encoder_file, weights_encoder_file, model_decoder_file,
    weights_decoder_file.
  cbn [map].
  rewrite !basename_os_path_join
    by (try reflexivity; apply format_no_sep; reflexivity).
  repeat (constructor;
          [ cbn [In];
            repeat (let H := fresh "H" in
                    intros [H | H];
                    [ exfalso; unfold format in H;
                      first [ apply append_inv_head in H;
                              apply append_inv_head in H; discriminate H
                            | simpl in H; discriminate H ]
                    | revert H ]);
            intros H; exact H
          | ]).
  constructor.
Qed.

Lemma os_path_join_absolute (a a' x y file : string) :
  startswith_sep y = true ->
  os_path_join a [x; y; file] = os_path_join a' [x; y; file].
Proof.
  intros Hy. simpl. f_equal. unfold join2 at 1 3. now rewrite Hy.
Qed.

(** An analysis name that starts with the separator makes the base
    directory irrelevant: [os.path.join] restarts at the absolute component,
    so the input is read and all seven files are written under the analysis
    name itself, the same paths for any two base directories. *)
Theorem absolute_analysis_name (base_dir base_dir' analysis_name : string)
  (latent_dim : nat) :
  startswith_sep analysis_name = true ->
  [data_file base_dir analysis_name;
   hist_plot_file latent_dim base_dir analysis_name;
   stat_file latent_dim base_dir analysis_name;
   encoded_file latent_dim base_dir analysis_name;
   model_encoder_file latent_dim base_dir analysis_name;
   weights_encoder_file latent_dim base_dir analysis_name;
   model_decoder_file latent_dim base_dir analysis_name;
   weights_decoder_file latent_dim base_dir analysis_name] =
  [data_file base_dir' analysis_name;
   hist_plot_file latent_dim base_dir' analysis_name;
   stat_file latent_dim base_dir' analysis_name;
   encoded_file latent_dim base_dir' analysis_name;
   model_encoder_file latent_dim base_dir' analysis_name;
   weights_encoder_file latent_dim base_dir' analysis_name;
   model_decoder_file latent_dim base_dir' analysis_name;
   weights_decoder_file latent_dim base_dir' analysis_name] /\
  data_file base_dir analysis_name =
  join2 analysis_name "train_model_input.txt.xz".
Proof.
  intros Habs.
  unfold data_file, hist_plot_file, stat_file, encoded_file,
    model_encoder_file, weights_encoder_file, model_decoder_file,
    weights_decoder_file.
  split.
  - repeat (apply f_equal2; [now apply os_path_join_absolute |]). reflexivity.
  - simpl. f_equal. unfold join2 at 1. now rewrite Habs.
Qed.

Lemma absolute_analysis_name_witness :
  startswith_sep "/scratch/run1" = true /\
  data_file "/home/user/project" "/scratch/run1" =
  "/scratch/run1/train_model_input.txt.xz"%string /\
  stat_file 2 "/home/user/project" "/scratch/run1" =
  stat_file 2 "" "/scratch/run1".
Proof.
  assert (Habs : startswith_sep "/scratch/run1" = true) by reflexivity.
  destruct (absolute_analysis_name "/home/user/project" "" "/scratch/run1" 2
              Habs) as [Hall Hdata].
  split; [exact Habs |]. split.
  - rewrite Hdata. reflexivity.
  - exact (f_equal (fun paths => nth 2 paths EmptyString) Hall).
Defined.
